(** * Constituency results parser: a shallow embedding of [parser.py]

    The development follows the source file top-down:

    - Python text ([str.replace], slicing) and the one regular expression
      the parser uses;
    - the parsed document ([BeautifulSoup] tags, [find_all], [.text]);
    - the [Constituency] class and [to_pandas];
    - the part of pandas the parser touches (column assignment, [concat],
      [.str.replace], [to_csv]);
    - [parse] itself, first on a parsed document and then on a file system.

    Python exceptions are values of [exn]; code that may raise returns
    [result A].  A Python [str] is a Rocq [string].  The parser does three
    things with a character: it compares it with an ASCII character of one
    of its own literals, it copies it, and it asks whether [\d] accepts
    it.  So the ASCII characters stand for themselves, and what the other
    characters of [string] stand for is left open.  In a [str] pattern
    [\d] accepts every character that Unicode lists as a decimal digit,
    the ten ASCII digits among many others.  That table is no part of the
    repository: the extraction takes the class as a parameter, and what
    is proved of it holds whatever the class is. *)

From Stdlib Require Import Ascii String.
From stdpp Require Import gmap strings list pretty.

Set Warnings "-register-all".

(** ** Exceptions *)

Inductive exn : Type :=
  | IndexError          (* list index out of range *)
  | AttributeError      (* attribute access on [None] *)
  | ValueError          (* pandas: length of values does not match length of index *)
  | KeyError            (* pandas: no column with that label *)
  | FileNotFoundError.  (* [open] on a missing file *)

Definition result (A : Type) : Type := exn + A.

Definition ret {A} (a : A) : result A := inr a.
Definition raise {A} (e : exn) : result A := inl e.

Definition bind {A B} (m : result A) (k : A -> result B) : result B :=
  match m with
  | inl e => inl e
  | inr a => k a
  end.

Notation "'do' x <- m ; k" := (bind m (fun x => k))
  (at level 10, x name, m at level 100, k at level 200).
Notation "'do' ' p <- m ; k" := (bind m (fun x => match x with p => k end))
  (at level 10, p pattern, m at level 100, k at level 200).

(** A [for] loop whose body may raise: the first exception ends the loop. *)
Fixpoint for_each {S X} (body : S -> X -> result S) (xs : list X) (st : S)
  : result S :=
  match xs with
  | [] => ret st
  | x :: xs' => do st' <- body st x; for_each body xs' st'
  end.

(** [l[i]] for a non-negative index. *)
Definition getitem {A} (l : list A) (i : nat) : result A :=
  match l !! i with
  | Some a => ret a
  | None => raise IndexError
  end.

(** ** Python text *)

Module Py.

(** [s.startswith(p)] *)
Fixpoint startswith (p s : string) : bool :=
  match p, s with
  | EmptyString, _ => true
  | String a p', String b s' => if Ascii.eqb a b then startswith p' s' else false
  | String _ _, EmptyString => false
  end.

(** The scanning loop of [str.replace] for a non-empty [old]: [skip] counts
    the characters of the occurrence just replaced that are still to be
    passed over, so occurrences are taken left to right without overlap. *)
Fixpoint replace_scan (old new : string) (skip : nat) (s : string) : string :=
  match s with
  | EmptyString => EmptyString
  | String c s' =>
      match skip with
      | S k => replace_scan old new k s'
      | O =>
          if startswith old s
          then new +:+ replace_scan old new (String.length old - 1) s'
          else String c (replace_scan old new 0 s')
      end
  end.

(** With an empty [old], [new] is inserted before every character and at
    the end. *)
Fixpoint intersperse (new s : string) : string :=
  match s with
  | EmptyString => new
  | String c s' => new +:+ String c (intersperse new s')
  end.

(** [s.replace(old, new)] *)
Definition replace (old new s : string) : string :=
  match old with
  | EmptyString => intersperse new s
  | String _ _ => replace_scan old new 0 s
  end.

(** [s[:-n]] for [n > 0] *)
Fixpoint take (n : nat) (s : string) : string :=
  match n, s with
  | S n', String c s' => String c (take n' s')
  | _, _ => EmptyString
  end.

Definition drop_last (n : nat) (s : string) : string :=
  take (String.length s - n) s.

Fixpoint drop (n : nat) (s : string) : string :=
  match n, s with
  | S n', String _ s' => drop n' s'
  | _, _ => s
  end.

(** [c in s] *)
Fixpoint contains (c : ascii) (s : string) : bool :=
  match s with
  | EmptyString => false
  | String a s' => Ascii.eqb a c || contains c s'
  end.

Fixpoint all_chars (p : ascii -> bool) (s : string) : bool :=
  match s with
  | EmptyString => true
  | String a s' => p a && all_chars p s'
  end.

End Py.

(** ** The regular expression ['Electorate: [\d,]{1,}'] *)

Module Re.

Section Pattern.

(** [\d]: in a [str] pattern, the characters Unicode lists as decimal
    digits. *)
Variable decimal : ascii -> bool.

(** The character class [[\d,]]. *)
Definition in_class (c : ascii) : bool :=
  decimal c || Ascii.eqb c ","%char.

Definition literal : string := "Electorate: "%string.

(** Greedy [{1,}]: the longest run of class characters at the front. *)
Fixpoint run (s : string) : string :=
  match s with
  | EmptyString => EmptyString
  | String c s' => if in_class c then String c (run s') else EmptyString
  end.

(** The match anchored at the start of [s], if there is one: the literal
    followed by a non-empty greedy run.  The pattern has no alternative
    and nothing follows the repetition, so no backtracking is involved. *)
Definition match_here (s : string) : option string :=
  if Py.startswith literal s then
    match run (Py.drop (String.length literal) s) with
    | EmptyString => None
    | r => Some (literal +:+ r)
    end
  else None.

(** [re.search(pattern, s)]: the leftmost match; [None] when no position
    matches.  The value is the matched text, [group(0)]. *)
Fixpoint search (s : string) : option string :=
  match match_here s with
  | Some m => Some m
  | None =>
      match s with
      | EmptyString => None
      | String _ s' => search s'
      end
  end.

End Pattern.

(** The ten ASCII digits: the class on the worked documents, which hold
    no other digit. *)
Definition ascii_digit (c : ascii) : bool :=
  let n := Ascii.nat_of_ascii c in (48 <=? n) && (n <=? 57).

End Re.

(** ** The parsed document *)

(** A node of the tree BeautifulSoup builds: a text string, a tag with its
    name and children, or a string that [.text] leaves out (a comment). *)
Inductive node : Type :=
  | Text (s : string)
  | Comment (s : string)
  | Tag (name : string) (contents : list node).

Definition is_named (name : string) (n : node) : bool :=
  match n with
  | Tag t _ => String.eqb t name
  | _ => false
  end.

(** All tags below [n], in document order ([n] itself excluded). *)
Fixpoint descendants (n : node) : list node :=
  match n with
  | Tag _ kids =>
      flat_map (fun k => match k with
                         | Tag _ _ => k :: descendants k
                         | _ => []
                         end) kids
  | _ => []
  end.

(** [n.find_all(name)] *)
Definition find_all (name : string) (n : node) : list node :=
  filter (fun k => is_named name k = true) (descendants n).

(** [n.text]: the text strings below [n], joined in document order. *)
Fixpoint text (n : node) : string :=
  match n with
  | Text s => s
  | Comment _ => EmptyString
  | Tag _ kids => fold_right (fun k acc => text k +:+ acc) EmptyString kids
  end.

(** ** The part of pandas the parser uses *)

(** What a cell of a frame can hold here: a Python string, the empty list
    [[]] that [Constituency.__init__] leaves in [electorate], or the
    missing-value marker that pandas fills in when it reindexes. *)
Inductive value : Type :=
  | Str (s : string)
  | EmptyList
  | NaN.

(** A frame: the row labels and the columns in order, each with its label. *)
Record DataFrame : Type := mkDataFrame {
  index : list nat;
  columns : list (string * list value)
}.

(** [pd.DataFrame(columns=labels)]: no rows. *)
Definition DataFrame_new (labels : list string) : DataFrame :=
  {| index := []; columns := map (fun c => (c, [])) labels |}.

Fixpoint assoc {V} (key : string) (l : list (string * V)) : option V :=
  match l with
  | [] => None
  | (c, v) :: rest => if String.eqb c key then Some v else assoc key rest
  end.

(** [df[key]] *)
Definition getcol (df : DataFrame) (key : string) : result (list value) :=
  match assoc key (columns df) with
  | Some vs => ret vs
  | None => raise KeyError
  end.

(** pandas' [_ensure_valid_index]: a frame without rows that is assigned a
    non-empty list takes [range(len(values))] as its index, and its
    existing columns are reindexed, that is, filled with [NaN]. *)
Definition ensure_valid_index (df : DataFrame) (values : list value) : DataFrame :=
  if (length (index df) =? 0) && negb (length values =? 0)
  then {| index := seq 0 (length values);
          columns := map (fun col => (col.1, replicate (length values) NaN))
                         (columns df) |}
  else df.

(** The column [key] replaced in place, or added last when it is new. *)
Fixpoint set_column (key : string) (values : list value)
    (cols : list (string * list value)) : list (string * list value) :=
  match cols with
  | [] => [(key, values)]
  | (c, vs) :: rest =>
      if String.eqb c key then (c, values) :: rest
      else (c, vs) :: set_column key values rest
  end.

(** [df[key] = values] for a list (or for a series that carries the
    frame's own index): [ValueError] when the lengths differ. *)
Definition setitem (df : DataFrame) (key : string) (values : list value)
  : result DataFrame :=
  let df := ensure_valid_index df values in
  if length values =? length (index df)
  then ret {| index := index df; columns := set_column key values (columns df) |}
  else raise ValueError.

(** The column [c] of [df] as [concat] sees it: missing columns are [NaN]. *)
Definition column_or_nan (df : DataFrame) (c : string) : list value :=
  match assoc c (columns df) with
  | Some vs => vs
  | None => replicate (length (index df)) NaN
  end.

Definition labels (df : DataFrame) : list string := map fst (columns df).

(** [pd.concat([a, b])]: rows of [a] then rows of [b], over the union of
    the column labels ([a]'s first, then the new ones of [b]). *)
Definition concat (a b : DataFrame) : DataFrame :=
  let new := List.filter (fun c => negb (existsb (String.eqb c) (labels a)))
                         (labels b) in
  {| index := index a ++ index b;
     columns := map (fun c => (c, column_or_nan a c ++ column_or_nan b c))
                    (labels a ++ new) |}.

(** One element of [series.str.replace(old, new)]: anything that is not a
    string becomes [NaN]. *)
Definition str_replace (old new : string) (v : value) : value :=
  match v with
  | Str s => Str (Py.replace old new s)
  | _ => NaN
  end.

(** Row [i] of the frame, in column order. *)
Definition row (df : DataFrame) (i : nat) : list value :=
  map (fun col => nth i col.2 NaN) (columns df).

Definition rows (df : DataFrame) : list (list value) :=
  map (row df) (seq 0 (length (index df))).

(** How [to_csv] prints a cell ([na_rep] is the empty string). *)
Definition csv_field (v : value) : string :=
  match v with
  | Str s => s
  | EmptyList => "[]"
  | NaN => ""
  end.

(** The records [df.to_csv(path, index=..., header=...)] hands to the csv
    writer: the header record when asked for, then one record per row,
    led by the row label when asked for. *)
Definition to_csv_records (df : DataFrame) (with_index with_header : bool)
  : list (list string) :=
  let lead (s : string) := if with_index then [s] else [] in
  (if with_header then [lead "" ++ labels df] else []) ++
  map (fun '(l, r) => lead (pretty l) ++ map csv_field r)
      (zip (index df) (rows df)).

(** ** The [Constituency] class (lines 36-94) *)

Record Constituency : Type := mkConstituency {
  name : string;
  candidates : list string;
  parties : list string;
  votes : list string;
  percent : list string;
  electorate : value
}.

Definition Constituency_init (name : string) : Constituency :=
  {| name := name; candidates := []; parties := []; votes := [];
     percent := []; electorate := EmptyList |}.

Definition set_electorate (self : Constituency) (e : value) : Constituency :=
  {| name := name self; candidates := candidates self;
     parties := parties self; votes := votes self;
     percent := percent self; electorate := e |}.

Definition append_candidates (self : Constituency) (x : string) : Constituency :=
  {| name := name self; candidates := candidates self ++ [x];
     parties := parties self; votes := votes self;
     percent := percent self; electorate := electorate self |}.

Definition append_parties (self : Constituency) (x : string) : Constituency :=
  {| name := name self; candidates := candidates self;
     parties := parties self ++ [x]; votes := votes self;
     percent := percent self; electorate := electorate self |}.

Definition append_votes (self : Constituency) (x : string) : Constituency :=
  {| name := name self; candidates := candidates self;
     parties := parties self; votes := votes self ++ [x];
     percent := percent self; electorate := electorate self |}.

Definition append_percent (self : Constituency) (x : string) : Constituency :=
  {| name := name self; candidates := candidates self;
     parties := parties self; votes := votes self;
     percent := percent self ++ [x]; electorate := electorate self |}.

Definition to_pandas (self : Constituency) : result DataFrame :=
  let names := replicate (length (candidates self)) (Str (name self)) in
  let electorates := replicate (length names) (electorate self) in
  let dataframe := DataFrame_new ["names"; "candidates"; "parties";
                                  "votes"; "percent"; "electorate"] in
  do dataframe <- setitem dataframe "names" names;
  do dataframe <- setitem dataframe "candidates" (Str <$> candidates self);
  do dataframe <- setitem dataframe "parties" (Str <$> parties self);
  do dataframe <- setitem dataframe "votes" (Str <$> votes self);
  do dataframe <- setitem dataframe "percent" (Str <$> percent self);
  do dataframe <- setitem dataframe "electorate" electorates;
  ret dataframe.

(** ** Worked documents *)

Module Examples.

Definition td (s : string) : node := Tag "td" [Text s].
Definition tr (kids : list node) : node := Tag "tr" kids.

Definition nested (cells : list string) : node :=
  Tag "table" [tr (td <$> cells)].

Definition seat (nm el : string) (cells : list string) : node :=
  tr [Tag "td" [Tag "b" [Text nm]; Tag "p" [Text el]; nested cells]].

Definition page (seats : list node) : node :=
  Tag "html" [Tag "body" [Tag "table" [tr [td "menu"]]; Tag "table" seats]].

Definition doe : list string := ["J. Doe*"; "Indep"; "1,234"; "45.6%"].

(** The scenario of the specification: one constituency, one candidate. *)
Definition anytown : node :=
  page [seat "Anytown" "Electorate: 54,321" doe].

(** A percentage cell with a second per-cent sign inside. *)
Definition odd_percent : node := nested ["A"; "B"; "1"; "4%5%"].

(** The same page with everything inside one outer table. *)
Definition wrapped : node :=
  Tag "html" [Tag "body" [Tag "table" [tr [Tag "td"
    [Tag "table" [seat "Anytown" "Electorate: 54,321" doe]]]]]].

(** A page with the results table alone: the navigation table is missing. *)
Definition results_only : node :=
  Tag "html" [Tag "body" [Tag "table" [seat "Anytown" "Electorate: 54,321" doe]]].

(** A page with one table and nothing nested in it. *)
Definition one_table : node :=
  Tag "html" [Tag "body" [Tag "table" [tr [td "menu"]]]].

(** A paragraph without an electorate figure. *)
Definition no_figure : node :=
  page [seat "Anytown" "Polling day: 5 July" doe].

(** Two nested tables, one name and one electorate. *)
Definition unnamed_table : node :=
  page [seat "Anytown" "Electorate: 54,321" doe; tr [Tag "td" [nested doe]]].

(** A three-cell table followed by a well-formed one, with commas in the
    names. *)
Definition university_first : node :=
  page [seat "Combined, Universities" "Electorate: 2,000" ["A. Don"; "Ind"; "900"];
        seat "Any, town" "Electorate: 54,321" doe].

(** A nested table that is written inside the one cell of another. *)
Definition table_in_cell : node := Tag "table" [tr [Tag "td" [nested doe]]].

Definition big_table_of (soup : node) : node :=
  nth 1 (find_all "table" soup) (Text "").

(** A record of good shape and one that lacks a percentage. *)
Definition two_candidates : Constituency :=
  {| name := "Anytown"; candidates := ["J. Doe"; "R. Roe"];
     parties := ["Indep"; "Lab"]; votes := ["1234"; "1000"];
     percent := ["45.6"; "37.0"]; electorate := Str "54321" |}.

Definition no_percent : Constituency :=
  {| name := "Combined Universities"; candidates := ["A. Don"];
     parties := ["Ind"]; votes := ["900"]; percent := [];
     electorate := Str "2000" |}.

(** Stand-ins for the two library collaborators: a parser that knows one
    page, and a writer that joins fields with commas and ends each record
    with a line feed. *)
Definition soup_of (content : string) : node :=
  if String.eqb content "<anytown>" then anytown else Tag "html" [].

Definition join_records (records : list (list string)) : string :=
  String.concat "" (map (fun r => String.concat "," r +:+ String "010" "") records).

Definition disk : gmap string string := {[ "anytown.htm"%string := "<anytown>"%string ]}.

End Examples.

(** ** More worked inputs *)

Module Layouts.





(** The command line of the usage note, and a disk whose input file
    already has the name of a csv file. *)
Definition argv : list string := ["parser.py"; "anytown.htm"].

Definition csv_named : gmap string string :=
  {[ "anytown.csv"%string := "<anytown>"%string ]}.

End Layouts.

(** * The extraction *)

Section Extraction.

(** The class [\d].  One fact about it is used, and only where the literal
    is taken off the match: the letter [E], with which the literal starts,
    is not a decimal digit. *)
Variable decimal : ascii -> bool.
Hypothesis decimal_not_E : decimal "E" = false.

(** ** [parse] on a parsed document (lines 110-188) *)

(** The body of the loop over the results table's rows (lines 120-132):
    the bold tags are kept as they are, every paragraph is searched for an
    electorate. *)
Definition collect_electorate (electorates : list string)
    (constituency_info : node) : result (list string) :=
  match Re.search decimal (text constituency_info) with
  | None => raise AttributeError
  | Some exp =>
      let new_exp := Py.replace "," "" (Py.replace "Electorate: " "" exp) in
      ret (electorates ++ [new_exp])
  end.

Definition collect_row (st : list node * list string) (tr : node)
  : result (list node * list string) :=
  let '(constituency_names, electorates) := st in
  let constituency_names :=
    fold_left (fun acc constituency_name => acc ++ [constituency_name])
              (find_all "b" tr) constituency_names in
  do electorates <- for_each collect_electorate (find_all "p" tr) electorates;
  ret (constituency_names, electorates).

(** The body of the innermost loop (lines 148-164): [count] decides what
    the cell means. *)
Definition decode_item (st : Constituency * nat) (item : node)
  : Constituency * nat :=
  let '(constituency, count) := st in
  let constituency :=
    if count mod 4 =? 0 then
      append_candidates constituency
        (Py.replace "*" "" (Py.replace "," "" (text item)))
    else if count mod 4 =? 1 then
      append_parties constituency (Py.replace "," "" (text item))
    else if count mod 4 =? 2 then
      append_votes constituency (Py.replace "," "" (text item))
    else if count mod 4 =? 3 then
      append_percent constituency
        (Py.replace "%" "" (Py.replace "," "" (text item)))
    else constituency in
  (constituency, count + 1).

(** The two loops over one nested table (lines 145-164), from
    [count = 0]. *)
Definition decode_table (table : node) (constituency : Constituency)
  : Constituency * nat :=
  let count := 0 in
  fold_left (fun st row => fold_left decode_item (find_all "td" row) st)
            (find_all "tr" table) (constituency, count).

(** The body of the loop over the nested tables (lines 137-167). *)
Definition build_step (constituency_names : list node)
    (electorates : list string) (st : list Constituency * nat) (table : node)
  : result (list Constituency * nat) :=
  let '(constituencies, con_count) := st in
  do constituency_name <- getitem constituency_names con_count;
  let constituency := Constituency_init (text constituency_name) in
  do e <- getitem electorates con_count;
  let constituency := set_electorate constituency (Str e) in
  let con_count := con_count + 1 in
  let constituency := (decode_table table constituency).1 in
  ret (constituencies ++ [constituency], con_count).

(** The body of the assembly loop (lines 176-185): [except ValueError:
    pass]. *)
Definition assemble_step (dataframe : DataFrame) (constituency : Constituency)
  : result DataFrame :=
  match to_pandas constituency with
  | inr frame => ret (concat dataframe frame)
  | inl ValueError => ret dataframe
  | inl e => raise e
  end.

(** From the results table to the list [constituencies] (lines 115-167). *)
Definition build (big_table : node) : result (list Constituency) :=
  do '(constituency_names, electorates) <-
    for_each collect_row (find_all "tr" big_table) ([], []);
  do '(constituencies, _) <-
    for_each (build_step constituency_names electorates)
             (find_all "table" big_table) ([], 0);
  ret constituencies.

(** From [constituencies] to the final frame (lines 170-188). *)
Definition assemble (constituencies : list Constituency) : result DataFrame :=
  let dataframe := DataFrame_new ["names"; "candidates"; "parties";
                                  "votes"; "percent"] in
  do dataframe <- for_each assemble_step constituencies dataframe;
  do names <- getcol dataframe "names";
  setitem dataframe "names" (str_replace "," "" <$> names).

(** Everything [parse] does once it holds the results table. *)
Definition parse_table (big_table : node) : result DataFrame :=
  do constituencies <- build big_table;
  assemble constituencies.

(** [soup.find_all('table')[1]] (line 112), and the rest. *)
Definition parse_document (soup : node) : result DataFrame :=
  do big_table <- getitem (find_all "table" soup) 1;
  parse_table big_table.

(** ** [parse] on files (lines 97-196) *)

Section Files.

(** The two collaborators the parser takes from libraries: the HTML
    parser, from the text of a file to its tree, and the csv writer,
    from records to the text of a file. *)
Variable BeautifulSoup : string -> node.
Variable csv_writer : list (list string) -> string.

Definition parse (fs : gmap string string) (file_handle : string)
    (write_to_csv : bool) : result DataFrame * gmap string string :=
  match fs !! file_handle with
  | None => (raise FileNotFoundError, fs)
  | Some content =>
      match parse_document (BeautifulSoup content) with
      | inl e => (inl e, fs)
      | inr dataframe =>
          let fs :=
            if write_to_csv
            then <[Py.drop_last 4 file_handle +:+ ".csv" :=
                     csv_writer (to_csv_records dataframe false false)]> fs
            else fs in
          (inr dataframe, fs)
      end
  end.

End Files.

(** ** The script (lines 199-205) *)

Section Script.

Variable BeautifulSoup : string -> node.
Variable csv_writer : list (list string) -> string.

(** The [__main__] block: [print(sys.argv[1])], then
    [parse(sys.argv[1], write_to_csv=True)].  [stdout] holds the lines
    printed so far; the value is the uncaught exception, if there is one. *)
Definition main (argv : list string) (fs : gmap string string)
    (stdout : list string)
  : result unit * gmap string string * list string :=
  match getitem argv 1 with
  | inl e => (inl e, fs, stdout)
  | inr file_handle =>
      let stdout := stdout ++ [file_handle] in
      match parse BeautifulSoup csv_writer fs file_handle true with
      | (inl e, fs) => (inl e, fs, stdout)
      | (inr _, fs) => (inr tt, fs, stdout)
      end
  end.

End Script.

(** ** The specification's wording, where it differs from the code *)

(** Following the specification's words, "a trailing [%] sign stripped":
    only a last character [c] is taken off. *)
Fixpoint strip_trailing (c : ascii) (s : string) : string :=
  match s with
  | EmptyString => EmptyString
  | String a EmptyString => if Ascii.eqb a c then EmptyString else s
  | String a s' => String a (strip_trailing c s')
  end.

Definition spec_percent_text (item : node) : string :=
  strip_trailing "%" (Py.replace "," "" (text item)).

(** Following the specification's words, "the table-like elements at the
    top level": the tables that are not inside another table. *)
Fixpoint top_level_tables (n : node) : list node :=
  match n with
  | Tag _ kids =>
      flat_map (fun k => match k with
                         | Tag t _ =>
                             if String.eqb t "table" then [k]
                             else top_level_tables k
                         | _ => []
                         end) kids
  | _ => []
  end.

(** ** Vocabulary of the statements *)

(** The electorate text kept for a match [exp]. *)
Definition electorate_text (exp : string) : string :=
  Py.replace "," "" (Py.replace "Electorate: " "" exp).

(** The electorate a paragraph yields when the pattern is found in it. *)
Definition electorate_of (p : node) : string :=
  match Re.search decimal (text p) with
  | Some exp => electorate_text exp
  | None => ""
  end.

(** A text with a place where [Electorate: ] is directly followed by a
    decimal digit or a comma. *)
Definition has_figure (s : string) : Prop :=
  exists pre c rest,
    s = pre +:+ "Electorate: " +:+ String c rest /\ Re.in_class decimal c = true.

(** The paragraphs and the bold tags the collection loop visits, row by
    row, and the cells the decode loop visits in one nested table. *)
Definition scanned_paragraphs (big_table : node) : list node :=
  flat_map (find_all "p") (find_all "tr" big_table).

Definition bold_markers (big_table : node) : list node :=
  flat_map (find_all "b") (find_all "tr" big_table).

Definition cells (table : node) : list node :=
  flat_map (find_all "td") (find_all "tr" table).

(** A table as the source site writes it: rows directly below the table,
    cells directly below their row, and neither rows nor cells inside a
    cell. *)
Definition contents (n : node) : list node :=
  match n with
  | Tag _ kids => kids
  | _ => []
  end.

Definition plain_cell (k : node) : Prop :=
  is_named "td" k = true /\ find_all "tr" k = [] /\ find_all "td" k = [].

Definition plain_row (k : node) : Prop :=
  is_named "tr" k = true /\ Forall plain_cell (contents k).

(** A tag below which rows and cells are laid out in order: no row lies
    inside a row, and every cell lies inside a row. *)
Fixpoint orderly (n : node) : bool :=
  match n with
  | Tag _ kids =>
      forallb (fun k => match k with
                        | Tag t _ =>
                            if String.eqb t "tr"
                            then match find_all "tr" k with
                                 | [] => true
                                 | _ => false
                                 end
                            else negb (String.eqb t "td") && orderly k
                        | _ => true
                        end) kids
  | _ => true
  end.

(** The elements of [l] whose running index, counted from [k], is [r]
    modulo 4. *)
Fixpoint phase_from {A} (r k : nat) (l : list A) : list A :=
  match l with
  | [] => []
  | x :: l' =>
      if k mod 4 =? r then x :: phase_from r (S k) l'
      else phase_from r (S k) l'
  end.

(** The three normalisations of a cell's text. *)
Definition candidate_text (item : node) : string :=
  Py.replace "*" "" (Py.replace "," "" (text item)).

Definition plain_text (item : node) : string :=
  Py.replace "," "" (text item).

Definition percent_text (item : node) : string :=
  Py.replace "%" "" (Py.replace "," "" (text item)).

(** [constituency] after the cells [items] were decoded from index [k]. *)
Definition decoded (constituency : Constituency) (items : list node) (k : nat)
  : Constituency :=
  {| name := name constituency;
     candidates := candidates constituency ++ (candidate_text <$> phase_from 0 k items);
     parties := parties constituency ++ (plain_text <$> phase_from 1 k items);
     votes := votes constituency ++ (plain_text <$> phase_from 2 k items);
     percent := percent constituency ++ (percent_text <$> phase_from 3 k items);
     electorate := electorate constituency |}.

(** The record the build loop starts a nested table with. *)
Definition fresh (constituency_name : node) (e : string) : Constituency :=
  set_electorate (Constituency_init (text constituency_name)) (Str e).

(** The column labels of the two frames [parse] creates. *)
Definition five : list string :=
  ["names"; "candidates"; "parties"; "votes"; "percent"].

Definition six : list string := five ++ ["electorate"].

Definition frame6 (idx : list nat) (a b c d e f : list value) : DataFrame :=
  {| index := idx;
     columns := [("names", a); ("candidates", b); ("parties", c);
                 ("votes", d); ("percent", e); ("electorate", f)] |}.

(** The four sequences have one length. *)
Definition shape_ok (c : Constituency) : bool :=
  (length (parties c) =? length (candidates c)) &&
  (length (votes c) =? length (candidates c)) &&
  (length (percent c) =? length (candidates c)).

(** The frame of a record of good shape. *)
Definition frame_of (c : Constituency) : DataFrame :=
  let n := length (candidates c) in
  frame6 (seq 0 n) (replicate n (Str (name c)))
         (Str <$> candidates c) (Str <$> parties c)
         (Str <$> votes c) (Str <$> percent c)
         (replicate n (electorate c)).

(** The merged table of records of good shape, names already stripped. *)
Definition merged (gs : list Constituency) : DataFrame :=
  frame6 (flat_map (fun c => seq 0 (length (candidates c))) gs)
         (flat_map (fun c => replicate (length (candidates c))
                                       (Str (Py.replace "," "" (name c)))) gs)
         (flat_map (fun c => Str <$> candidates c) gs)
         (flat_map (fun c => Str <$> parties c) gs)
         (flat_map (fun c => Str <$> votes c) gs)
         (flat_map (fun c => Str <$> percent c) gs)
         (flat_map (fun c => replicate (length (candidates c)) (electorate c)) gs).

(** A cell that prints without a comma. *)
Definition comma_free (v : value) : Prop :=
  Py.contains "," (csv_field v) = false.

(** A record none of whose fields holds a comma, the name apart. *)
Definition clean (c : Constituency) : Prop :=
  Forall (fun s => Py.contains "," s = false)
         (candidates c ++ parties c ++ votes c ++ percent c) /\
  comma_free (electorate c).

(** The cells of a table four at a time; an incomplete last group is left
    out. *)
Fixpoint quadruples {A} (l : list A) : list (A * A * A * A) :=
  match l with
  | a :: b :: c :: d :: l' => (a, b, c, d) :: quadruples l'
  | _ => []
  end.

(** The rows a record of good shape gives to the final table. *)
Definition record_rows (c : Constituency) : list (list value) :=
  (fun '(a, b, v, q) =>
     [Str (Py.replace "," "" (name c)); Str a; Str b; Str v; Str q; electorate c])
    <$> zip (zip (zip (candidates c) (parties c)) (votes c)) (percent c).

(** The rows a nested table gives to the final table, with the bold tag
    and the paragraph that fall to it. *)
Definition table_rows (nm p table : node) : list (list value) :=
  if length (cells table) mod 4 =? 0 then
    (fun '(a, b, c, d) =>
       [Str (Py.replace "," "" (text nm)); Str (candidate_text a);
        Str (plain_text b); Str (plain_text c); Str (percent_text d);
        Str (electorate_of p)])
      <$> quadruples (cells table)
  else [].

(** The number of nodes of a tree. *)
Fixpoint size (n : node) : nat :=
  match n with
  | Tag _ kids => S (fold_right (fun k acc => size k + acc) 0 kids)
  | _ => 1
  end.

(** * Properties *)

(** ** The error monad and loops *)

Lemma fold_left_snoc {A} (xs acc : list A) :
  fold_left (fun acc x => acc ++ [x]) xs acc = acc ++ xs.
Proof.
  revert acc. induction xs as [|x xs IH]; intros acc; simpl.
  - by rewrite app_nil_r.
  - rewrite IH. by rewrite <- app_assoc.
Qed.

Lemma getitem_ge {A} (l : list A) (i : nat) :
  length l <= i -> getitem l i = raise IndexError.
Proof. intros Hi. unfold getitem. by rewrite lookup_ge_None_2. Qed.

(** ** Text *)

(** stdpp keeps [+:+] folded under [simpl]; these two equations unfold it. *)
Lemma append_nil (s : string) : "" +:+ s = s.
Proof. reflexivity. Qed.

Lemma append_cons (a : ascii) (s t : string) :
  String a s +:+ t = String a (s +:+ t).
Proof. reflexivity. Qed.

Ltac unfold_append := rewrite ?append_cons, ?append_nil.

(** Replacing a single character by nothing, unfolded. *)
Lemma replace_char_cons (c a : ascii) (s : string) :
  Py.replace (String c "") "" (String a s) =
  if Ascii.eqb c a then Py.replace (String c "") "" s
  else String a (Py.replace (String c "") "" s).
Proof. unfold Py.replace. simpl. by destruct (Ascii.eqb c a). Qed.

Lemma contains_replace_char (c d : ascii) (s : string) :
  Py.contains d (Py.replace (String c "") "" s) =
  negb (Ascii.eqb c d) && Py.contains d s.
Proof.
  induction s as [|a s IH].
  - simpl. by rewrite andb_false_r.
  - rewrite replace_char_cons.
    destruct (Ascii.eqb_spec c a) as [->|Hca]; cbn [Py.contains].
    + rewrite IH. destruct (Ascii.eqb_spec a d); simpl; done.
    + rewrite IH. destruct (Ascii.eqb_spec a d) as [->|]; simpl.
      * by rewrite (proj2 (Ascii.eqb_neq c d) Hca).
      * done.
Qed.

(** After [.replace(c, '')] no [c] is left. *)
Lemma replace_char_gone (c : ascii) (s : string) :
  Py.contains c (Py.replace (String c "") "" s) = false.
Proof. rewrite contains_replace_char. by rewrite Ascii.eqb_refl. Qed.

(** Removing a character never brings another one in. *)
Lemma replace_char_keeps (c d : ascii) (s : string) :
  Py.contains d s = false ->
  Py.contains d (Py.replace (String c "") "" s) = false.
Proof. intros H. rewrite contains_replace_char, H. apply andb_false_r. Qed.

Lemma startswith_split (p s : string) :
  Py.startswith p s = true -> s = p +:+ Py.drop (String.length p) s.
Proof.
  revert s. induction p as [|a p IH]; intros s H; [by destruct s|].
  destruct s as [|b s]; [done|]. simpl in H.
  destruct (Ascii.eqb_spec a b) as [->|]; [|done].
  cbn [String.length Py.drop]. unfold_append. f_equal. by apply IH.
Qed.

Lemma startswith_append (p s : string) : Py.startswith p (p +:+ s) = true.
Proof.
  induction p as [|a p IH]; unfold_append; simpl; [done|].
  by rewrite Ascii.eqb_refl.
Qed.

Lemma drop_append (p s : string) : Py.drop (String.length p) (p +:+ s) = s.
Proof. induction p as [|a p IH]; unfold_append; simpl; [by destruct s|done]. Qed.

(** ** Tags below tags *)

Lemma node_induction (P : node -> Prop) :
  (forall s, P (Text s)) -> (forall s, P (Comment s)) ->
  (forall t kids, Forall P kids -> P (Tag t kids)) ->
  forall n, P n.
Proof.
  intros Htext Hcomment Htag. fix IH 1. intros [s|s|t kids].
  - apply Htext.
  - apply Hcomment.
  - apply Htag. induction kids as [|k kids IHkids]; constructor.
    + apply IH.
    + apply IHkids.
Qed.

(** A tag below a tag is a child tag or lies below a child tag. *)
Lemma elem_of_descendants (d : node) (t : string) (kids : list node) :
  d ∈ descendants (Tag t kids) <->
  exists k, k ∈ kids /\ (exists t' kids', k = Tag t' kids') /\
            (d = k \/ d ∈ descendants k).
Proof.
  cbn [descendants]. rewrite list_elem_of_In, in_flat_map. split.
  - intros (k & Hk%list_elem_of_In & Hd). exists k.
    destruct k as [s|s|t' kids']; try by destruct Hd.
    split; [done|]. split; [eauto|].
    destruct Hd as [<-|Hd]; [by left|right; by apply list_elem_of_In].
  - intros (k & Hk & (t' & kids' & ->) & Hd). exists (Tag t' kids').
    split; [by apply list_elem_of_In|].
    destruct Hd as [->|Hd]; [by left|right; by apply list_elem_of_In].
Qed.

Lemma descendants_trans (n k d : node) :
  k ∈ descendants n -> d ∈ descendants k -> d ∈ descendants n.
Proof.
  revert k d. induction n as [s|s|t kids IH] using node_induction;
    intros k d Hk Hd; [by apply elem_of_nil in Hk..|].
  apply elem_of_descendants in Hk as (c & Hc & Htag & Hk).
  apply elem_of_descendants. exists c. split_and!; [done..|]. right.
  destruct Hk as [->|Hk]; [done|].
  rewrite Forall_forall in IH. by apply (IH c Hc k d).
Qed.

Lemma descendants_smaller (n d : node) : d ∈ descendants n -> size d < size n.
Proof.
  revert d. induction n as [s|s|t kids IH] using node_induction;
    intros d Hd; [by apply elem_of_nil in Hd..|].
  apply elem_of_descendants in Hd as (c & Hc & _ & Hd).
  assert (size c < size (Tag t kids)) as Hsize.
  { cbn [size]. clear -Hc. induction Hc as [c kids|c k kids _ IHc];
      cbn [fold_right]; lia. }
  destruct Hd as [->|Hd]; [done|].
  rewrite Forall_forall in IH. specialize (IH c Hc d Hd). lia.
Qed.

Lemma find_all_descendant (name : string) (n d : node) :
  d ∈ find_all name n <-> d ∈ descendants n /\ is_named name d = true.
Proof. unfold find_all. by rewrite list_elem_of_filter, (comm and). Qed.

(** What [find_all] finds below a tag found by [find_all] is found from
    the top as well. *)
Lemma find_all_trans (a b : string) (n k d : node) :
  k ∈ find_all a n -> d ∈ find_all b k -> d ∈ find_all b n.
Proof.
  rewrite !find_all_descendant. intros [Hk _] [Hd Hname].
  split; [by eapply descendants_trans|done].
Qed.

(** An element listed by two different members of [l] sits at two places
    of [flat_map g l]. *)
Lemma flat_map_ordered {A B} (g : A -> list B) (l1 l2 l3 : list A) (x y : A)
    (p : B) :
  p ∈ g x -> p ∈ g y ->
  exists i j, i <> j /\
    flat_map g (l1 ++ x :: l2 ++ y :: l3) !! i = Some p /\
    flat_map g (l1 ++ x :: l2 ++ y :: l3) !! j = Some p.
Proof.
  intros [kx Hx]%list_elem_of_lookup_1 [ky Hy]%list_elem_of_lookup_1.
  pose proof (lookup_lt_Some _ _ _ Hx) as Hlx.
  exists (length (flat_map g l1) + kx),
         (length (flat_map g l1) + (length (g x) + (length (flat_map g l2) + ky))).
  split; [lia|].
  rewrite !flat_map_app. cbn [flat_map]. rewrite !flat_map_app. cbn [flat_map].
  split.
  - rewrite lookup_app_r by lia. rewrite lookup_app_l by lia.
    by replace (length (flat_map g l1) + kx - length (flat_map g l1)) with kx by lia.
  - rewrite lookup_app_r by lia. rewrite lookup_app_r by lia.
    rewrite lookup_app_r by lia. rewrite lookup_app_l.
    + rewrite <- Hy. f_equal. lia.
    + apply lookup_lt_Some in Hy. lia.
Qed.

Lemma flat_map_twice {A B} (g : A -> list B) (l : list A) (x y : A) (p : B) :
  x <> y -> x ∈ l -> y ∈ l -> p ∈ g x -> p ∈ g y ->
  exists i j, i <> j /\ flat_map g l !! i = Some p /\ flat_map g l !! j = Some p.
Proof.
  intros Hne Hx Hy Hpx Hpy.
  apply list_elem_of_split in Hx as (l1 & l2 & ->).
  apply elem_of_app in Hy as [Hy|Hy].
  - apply list_elem_of_split in Hy as (l3 & l4 & ->).
    rewrite <- app_assoc. cbn [app].
    by apply flat_map_ordered.
  - apply elem_of_cons in Hy as [->|Hy]; [done|].
    apply list_elem_of_split in Hy as (l3 & l4 & ->).
    by apply flat_map_ordered.
Qed.

(** Document order: a tag's matches are, child by child, the child itself
    when it matches, then the matches inside it. *)
Lemma find_all_tag (name t : string) (kids : list node) :
  find_all name (Tag t kids) =
  flat_map (fun k => (if is_named name k then [k] else []) ++ find_all name k) kids.
Proof.
  unfold find_all. cbn [descendants].
  induction kids as [|k kids IH]; [done|].
  cbn [flat_map]. rewrite filter_app, IH. f_equal.
  destruct k as [s|s|t' kids']; try done.
  rewrite filter_cons. cbn [is_named].
  destruct (String.eqb t' name); by case_decide.
Qed.

(** What is found below a row that lies inside another row is listed once
    for each of the two rows. *)
Lemma nested_row_twice (name : string) (n r r' d : node) :
  r ∈ find_all "tr" n -> r' ∈ find_all "tr" r -> d ∈ find_all name r' ->
  exists i j, i <> j /\
    flat_map (find_all name) (find_all "tr" n) !! i = Some d /\
    flat_map (find_all name) (find_all "tr" n) !! j = Some d.
Proof.
  intros Hr Hr' Hd.
  assert (r' ∈ find_all "tr" n) as Hr'' by by eapply find_all_trans.
  assert (r <> r') as Hne.
  { intros ->. apply find_all_descendant in Hr' as [Hdesc _].
    apply descendants_smaller in Hdesc. lia. }
  apply (flat_map_twice _ _ r r'); [done..| |done].
  by eapply find_all_trans.
Qed.

(** The first match comes before everything found below it, and that
    comes before every other match: document order is pre-order. *)
Lemma find_all_head (name : string) (n first : node) (rest : list node) :
  find_all name n = first :: rest ->
  exists later, rest = find_all name first ++ later.
Proof.
  revert first rest. induction n as [s|s|t kids IH] using node_induction;
    intros first rest; [done..|].
  rewrite find_all_tag.
  induction IH as [|k kids Hk _ IHkids]; [done|].
  cbn [flat_map]. destruct (is_named name k) eqn:Hname.
  - cbn [app]. intros [= <- <-]. eauto.
  - cbn [app]. destruct (find_all name k) as [|f fs] eqn:Hf.
    + cbn [app]. apply IHkids.
    + cbn [app]. intros [= <- <-].
      destruct (Hk f fs eq_refl) as [later ->].
      rewrite <- app_assoc. eauto.
Qed.

(** In an orderly tag the cells the rows list, one row after the other,
    are the cells of the tag in document order. *)
Lemma orderly_cells (n : node) :
  orderly n = true -> flat_map (find_all "td") (find_all "tr" n) = find_all "td" n.
Proof.
  induction n as [s|s|t kids IH] using node_induction; [done..|].
  cbn [orderly]. rewrite !find_all_tag. intros Hkids.
  induction IH as [|k kids Hk _ IHkids]; [done|].
  cbn [forallb] in Hkids. apply andb_true_iff in Hkids as [Hhead Hkids].
  cbn [flat_map]. rewrite flat_map_app, IHkids by done. f_equal.
  destruct k as [s|s|t' kids']; [done..|].
  cbn [is_named]. destruct (String.eqb t' "tr") eqn:Htr.
  - destruct (find_all "tr" (Tag t' kids')) eqn:Hrows; [|done].
    apply String.eqb_eq in Htr as ->. cbn [app flat_map].
    by rewrite app_nil_r.
  - apply andb_true_iff in Hhead as [Htd Horderly].
    apply negb_true_iff in Htd. rewrite Htd. cbn [app]. by apply Hk.
Qed.

(** ** The regular expression *)

Lemma run_in_class (s : string) : Py.all_chars (Re.in_class decimal) (Re.run decimal s) = true.
Proof.
  induction s as [|c s IH]; simpl; [done|].
  destruct (Re.in_class decimal c) eqn:Hc; simpl; [|done]. by rewrite Hc.
Qed.

(** The run is a prefix, and what follows it does not start in the class. *)
Lemma run_split (s : string) :
  exists post, s = Re.run decimal s +:+ post /\
    match post with
    | EmptyString => True
    | String c _ => Re.in_class decimal c = false
    end.
Proof.
  induction s as [|c s [post [IH Hpost]]]; simpl.
  - by exists EmptyString.
  - destruct (Re.in_class decimal c) eqn:Hc.
    + exists post. unfold_append. split; [by f_equal|done].
    + by exists (String c s).
Qed.

(** A run that starts with a class character is the whole run. *)
Lemma run_append (r post : string) :
  Py.all_chars (Re.in_class decimal) r = true ->
  match post with
  | EmptyString => True
  | String c _ => Re.in_class decimal c = false
  end ->
  Re.run decimal (r +:+ post) = r.
Proof.
  intros Hr Hpost. induction r as [|c r IH]; unfold_append; simpl in *.
  - destruct post as [|c post]; simpl; [done|]. by rewrite Hpost.
  - apply andb_true_iff in Hr as [Hc Hr]. rewrite Hc. f_equal. by apply IH.
Qed.

Lemma match_here_Some (s m : string) :
  Re.match_here decimal s = Some m ->
  exists r post,
    s = Re.literal +:+ r +:+ post /\ m = Re.literal +:+ r /\
    r <> EmptyString /\ Py.all_chars (Re.in_class decimal) r = true /\
    match post with
    | EmptyString => True
    | String c _ => Re.in_class decimal c = false
    end.
Proof.
  unfold Re.match_here. intros H.
  destruct (Py.startswith Re.literal s) eqn:Hs; [|done].
  apply startswith_split in Hs.
  destruct (run_split (Py.drop (String.length Re.literal) s)) as [post [Hrun Hpost]].
  pose proof (run_in_class (Py.drop (String.length Re.literal) s)) as Hcls.
  destruct (Re.run decimal (Py.drop (String.length Re.literal) s)) as [|c r] eqn:Hr; [done|].
  injection H as <-. exists (String c r), post.
  split_and!; try done. rewrite Hs at 1. by rewrite Hrun.
Qed.

Lemma match_here_complete (r post : string) :
  r <> EmptyString -> Py.all_chars (Re.in_class decimal) r = true ->
  match post with
  | EmptyString => True
  | String c _ => Re.in_class decimal c = false
  end ->
  Re.match_here decimal (Re.literal +:+ r +:+ post) = Some (Re.literal +:+ r).
Proof.
  intros Hne Hr Hpost. unfold Re.match_here.
  rewrite startswith_append, drop_append, run_append by done.
  by destruct r.
Qed.

(** What [re.search] returns is the literal followed by a non-empty,
    maximal run of digits and commas, found somewhere in the text. *)
Lemma search_Some (s m : string) :
  Re.search decimal s = Some m ->
  exists pre r post,
    s = pre +:+ Re.literal +:+ r +:+ post /\ m = Re.literal +:+ r /\
    r <> EmptyString /\ Py.all_chars (Re.in_class decimal) r = true /\
    match post with
    | EmptyString => True
    | String c _ => Re.in_class decimal c = false
    end.
Proof.
  induction s as [|c s IH]; simpl.
  - done.
  - destruct (Re.match_here decimal (String c s)) eqn:Hm.
    + intros [= <-]. apply match_here_Some in Hm as (r & post & ? & ? & ? & ? & ?).
      by exists EmptyString, r, post.
    + intros (pre & r & post & -> & ? & ? & ? & ?)%IH.
      by exists (String c pre), r, post.
Qed.

Lemma search_unfold (s : string) :
  Re.search decimal s =
  match Re.match_here decimal s with
  | Some m => Some m
  | None => match s with
            | EmptyString => None
            | String _ s' => Re.search decimal s'
            end
  end.
Proof. by destruct s. Qed.

(** Wherever the literal is followed by a digit or a comma, [re.search]
    finds a match. *)
Lemma search_complete (pre rest : string) (c : ascii) :
  Re.in_class decimal c = true ->
  is_Some (Re.search decimal (pre +:+ Re.literal +:+ String c rest)).
Proof.
  intros Hc. induction pre as [|a pre IH].
  - destruct (run_split (String c rest)) as [post [Hrun Hpost]].
    pose proof (run_in_class (String c rest)) as Hcls.
    assert (Re.run decimal (String c rest) <> EmptyString) as Hne
      by (simpl; by rewrite Hc).
    pose proof (match_here_complete _ _ Hne Hcls Hpost) as Hm.
    rewrite append_nil, search_unfold, Hrun, Hm. eauto.
  - rewrite append_cons, search_unfold.
    destruct (Re.match_here decimal _); [eauto|done].
Qed.

Lemma in_class_not_E (c : ascii) (s : string) :
  Re.in_class decimal c = true -> Py.startswith Re.literal (String c s) = false.
Proof.
  intros Hc. unfold Re.literal. cbn [Py.startswith].
  destruct (Ascii.eqb_spec "E" c) as [<-|]; [|done].
  unfold Re.in_class in Hc. rewrite decimal_not_E in Hc. done.
Qed.

Lemma in_class_digit (c : ascii) :
  Re.in_class decimal c = true -> Ascii.eqb c "," = false -> decimal c = true.
Proof. unfold Re.in_class. intros H1 H2. rewrite H2, orb_false_r in H1. done. Qed.

Lemma replace_scan_run (r : string) :
  Py.all_chars (Re.in_class decimal) r = true ->
  Py.replace_scan Re.literal "" 0 r = r.
Proof.
  induction r as [|c r IH]; [done|].
  cbn [Py.all_chars]. intros [Hc Hr]%andb_true_iff.
  cbn [Py.replace_scan]. rewrite (in_class_not_E c r Hc). f_equal. auto.
Qed.

(** [exp.group(0).replace('Electorate: ', '')] leaves the run. *)
Lemma replace_literal (r : string) :
  Py.all_chars (Re.in_class decimal) r = true ->
  Py.replace "Electorate: " "" (Re.literal +:+ r) = r.
Proof.
  intros Hr. unfold Py.replace, Re.literal. unfold_append. simpl.
  by apply replace_scan_run.
Qed.

Lemma digits_of_run (r : string) :
  Py.all_chars (Re.in_class decimal) r = true ->
  Py.all_chars decimal (Py.replace "," "" r) = true.
Proof.
  induction r as [|c r IH]; [done|].
  cbn [Py.all_chars]. intros [Hc Hr]%andb_true_iff. rewrite replace_char_cons.
  rewrite Ascii.eqb_sym.
  destruct (Ascii.eqb c ",") eqn:E; [auto|].
  cbn [Py.all_chars]. rewrite (in_class_digit c Hc E). simpl. auto.
Qed.

(** Taking occurrences out of a text leaves characters of the text. *)
Lemma replace_scan_all_chars (P : ascii -> bool) (old s : string) (skip : nat) :
  Py.all_chars P s = true -> Py.all_chars P (Py.replace_scan old "" skip s) = true.
Proof.
  revert skip. induction s as [|c s IH]; intros skip; [done|].
  cbn [Py.all_chars]. intros [Hc Hs]%andb_true_iff.
  cbn [Py.replace_scan]. destruct skip as [|k]; [|by apply IH].
  destruct (Py.startswith old (String c s)).
  - rewrite append_nil. by apply IH.
  - cbn [Py.all_chars]. rewrite Hc. by apply IH.
Qed.

Lemma replace_scan_skip (old new pre s : string) :
  Py.replace_scan old new (String.length pre) (pre +:+ s) =
  Py.replace_scan old new 0 s.
Proof.
  induction pre as [|a pre IH]; [by rewrite append_nil|].
  rewrite append_cons. cbn [String.length Py.replace_scan]. exact IH.
Qed.

(** An occurrence at the front is replaced, and the scan goes on behind
    it. *)
Lemma replace_scan_prefix (a : ascii) (old new s : string) :
  Py.replace_scan (String a old) new 0 (String a old +:+ s) =
  new +:+ Py.replace_scan (String a old) new 0 s.
Proof.
  rewrite append_cons. cbn [Py.replace_scan].
  rewrite <- append_cons, startswith_append.
  replace (String.length (String a old) - 1) with (String.length old)
    by (cbn [String.length]; lia).
  by rewrite replace_scan_skip.
Qed.

(** Whatever the class, what is kept of a match is decimal digits. *)
Lemma electorate_text_digits (r : string) :
  Py.all_chars (Re.in_class decimal) r = true ->
  Py.all_chars decimal (electorate_text (Re.literal +:+ r)) = true.
Proof.
  intros Hr. unfold electorate_text. apply digits_of_run.
  unfold Py.replace, Re.literal. rewrite replace_scan_prefix, append_nil.
  by apply replace_scan_all_chars.
Qed.

(** ** Collecting the side lists *)

Lemma collect_electorates_ok (ps : list node) (electorates : list string) :
  Forall (fun p => is_Some (Re.search decimal (text p))) ps ->
  for_each collect_electorate ps electorates =
  ret (electorates ++ (electorate_of <$> ps)).
Proof.
  intros H. revert electorates.
  induction H as [|p ps [exp Hp] _ IH]; intros electorates; simpl.
  - by rewrite app_nil_r.
  - unfold collect_electorate at 1. rewrite Hp. simpl.
    rewrite IH. unfold electorate_of at 2. rewrite Hp.
    by rewrite <- app_assoc.
Qed.

Lemma collect_electorates_bad (ps : list node) (electorates : list string) :
  Exists (fun p => Re.search decimal (text p) = None) ps ->
  for_each collect_electorate ps electorates = raise AttributeError.
Proof.
  intros H. revert electorates.
  induction ps as [|p ps IH]; intros electorates; [by inversion H|].
  simpl. unfold collect_electorate at 1.
  destruct (Re.search decimal (text p)) as [exp|] eqn:Hp; simpl; [|done].
  apply IH. by inversion H; simplify_eq.
Qed.

Lemma collect_rows_ok (trs names : list node) (electorates : list string) :
  Forall (fun p => is_Some (Re.search decimal (text p))) (flat_map (find_all "p") trs) ->
  for_each collect_row trs (names, electorates) =
  ret (names ++ flat_map (find_all "b") trs,
       electorates ++ (electorate_of <$> flat_map (find_all "p") trs)).
Proof.
  revert names electorates.
  induction trs as [|tr trs IH]; intros names electorates H; simpl.
  - by rewrite !app_nil_r.
  - simpl in H. apply Forall_app in H as [H1 H2].
    rewrite (collect_electorates_ok _ _ H1). simpl.
    rewrite fold_left_snoc, IH by done.
    by rewrite fmap_app, <- !app_assoc.
Qed.

Lemma collect_rows_bad (trs names : list node) (electorates : list string) :
  Exists (fun p => Re.search decimal (text p) = None) (flat_map (find_all "p") trs) ->
  for_each collect_row trs (names, electorates) = raise AttributeError.
Proof.
  revert names electorates.
  induction trs as [|tr trs IH]; intros names electorates H; simpl in *.
  - by inversion H.
  - destruct (for_each collect_electorate (find_all "p" tr) electorates)
      as [e|els] eqn:E; simpl.
    + apply Exists_app in H as [H|H].
      * rewrite (collect_electorates_bad _ _ H) in E.
        unfold raise in *. congruence.
      * destruct (decide (Forall (fun p => is_Some (Re.search decimal (text p)))
                                 (find_all "p" tr))) as [Hall|Hex].
        -- rewrite (collect_electorates_ok _ _ Hall) in E. discriminate.
        -- apply not_Forall_Exists in Hex; [|apply _].
           rewrite collect_electorates_bad in E;
             [unfold raise in *; congruence|].
           eapply Exists_impl; [done|]. simpl. intros p Hp.
           destruct (Re.search decimal (text p)); [|done]. destruct Hp; eauto.
    + apply Exists_app in H as [H|H].
      * rewrite (collect_electorates_bad _ _ H) in E. discriminate.
      * by apply IH.
Qed.

(** Every paragraph either has a match or has none. *)
Lemma matched_or_not (ps : list node) :
  Forall (fun p => is_Some (Re.search decimal (text p))) ps \/
  Exists (fun p => Re.search decimal (text p) = None) ps.
Proof.
  induction ps as [|p ps [IH|IH]]; [by left| |].
  - destruct (Re.search decimal (text p)) eqn:E.
    + left. constructor; [by rewrite E|done].
    + right. by left.
  - right. by right.
Qed.

(** What a matched paragraph contributes: the digits and commas that follow
    the literal, with the commas taken out. *)
Lemma electorate_of_matched (p : node) :
  is_Some (Re.search decimal (text p)) ->
  exists pre r post,
    text p = pre +:+ "Electorate: " +:+ r +:+ post /\
    r <> EmptyString /\ Py.all_chars (Re.in_class decimal) r = true /\
    match post with
    | EmptyString => True
    | String c _ => Re.in_class decimal c = false
    end /\
    electorate_of p = Py.replace "," "" r /\
    Py.all_chars decimal (electorate_of p) = true /\
    Py.contains "," (electorate_of p) = false.
Proof.
  intros [exp Hexp]. unfold electorate_of. rewrite Hexp.
  apply search_Some in Hexp as (pre & r & post & Hs & -> & Hne & Hr & Hpost).
  exists pre, r, post. unfold electorate_text.
  rewrite (replace_literal r Hr).
  split_and!; try done.
  - by apply digits_of_run.
  - apply replace_char_gone.
Qed.

(** ** Decoding one nested table *)

Lemma list_ind4 {A} (P : list A -> Prop) :
  P [] -> (forall a, P [a]) -> (forall a b, P [a; b]) ->
  (forall a b c, P [a; b; c]) ->
  (forall a b c d l, P l -> P (a :: b :: c :: d :: l)) ->
  forall l, P l.
Proof.
  intros H0 H1 H2 H3 H4.
  fix IH 1. intros [|a [|b [|c [|d l]]]];
    [apply H0|apply H1|apply H2|apply H3|apply H4, IH].
Qed.

Lemma phase_from_period {A} (r k : nat) (l : list A) :
  phase_from r (k + 4) l = phase_from r k l.
Proof.
  revert k. induction l as [|x l IH]; intros k; cbn [phase_from]; [done|].
  replace ((k + 4) mod 4) with (k mod 4)
    by (symmetry; apply (Nat.Div0.mod_add k 1 4)).
  change (S (k + 4)) with (S k + 4). by rewrite IH.
Qed.

Lemma phase_from_chunk {A} (r : nat) (a b c d : A) (l : list A) :
  r < 4 ->
  phase_from r 0 (a :: b :: c :: d :: l) = nth r [a; b; c; d] a :: phase_from r 0 l.
Proof.
  intros Hr. pose proof (phase_from_period r 0 l) as Hp. simpl in Hp.
  destruct r as [|[|[|[|r]]]]; simpl; try lia; by rewrite Hp.
Qed.

(** The [j]-th element picked at phase [r] is the cell at index [4 j + r]. *)
Lemma phase_from_lookup {A} (r j : nat) (l : list A) :
  r < 4 -> phase_from r 0 l !! j = l !! (4 * j + r).
Proof.
  intros Hr. revert j. induction l as [|a|a b|a b c|a b c d l IH] using list_ind4;
    intros j.
  - by rewrite lookup_nil.
  - destruct r as [|[|[|[|r]]]]; try lia; destruct j as [|j]; try done;
      symmetry; apply lookup_ge_None_2; simpl; lia.
  - destruct r as [|[|[|[|r]]]]; try lia; destruct j as [|j]; try done;
      symmetry; apply lookup_ge_None_2; simpl; lia.
  - destruct r as [|[|[|[|r]]]]; try lia; destruct j as [|j]; try done;
      symmetry; apply lookup_ge_None_2; simpl; lia.
  - rewrite phase_from_chunk by done. destruct j as [|j].
    + destruct r as [|[|[|[|r]]]]; try lia; done.
    + replace (4 * S j + r) with (S (S (S (S (4 * j + r))))) by lia.
      simpl. apply IH.
Qed.

Lemma phase_from_length {A} (r : nat) (l : list A) :
  r < 4 -> length (phase_from r 0 l) = (length l + 3 - r) / 4.
Proof.
  intros Hr. induction l as [|a|a b|a b c|a b c d l IH] using list_ind4.
  - destruct r as [|[|[|[|r]]]]; try lia; done.
  - destruct r as [|[|[|[|r]]]]; try lia; done.
  - destruct r as [|[|[|[|r]]]]; try lia; done.
  - destruct r as [|[|[|[|r]]]]; try lia; done.
  - rewrite phase_from_chunk by done. cbn [length]. rewrite IH.
    replace (S (S (S (S (length l)))) + 3 - r) with ((length l + 3 - r) + 1 * 4) by lia.
    rewrite Nat.div_add by done. lia.
Qed.

Lemma decode_item_decoded (constituency : Constituency) (k : nat) (x : node)
    (xs : list node) :
  decoded (decode_item (constituency, k) x).1 xs (k + 1) =
  decoded constituency (x :: xs) k.
Proof.
  pose proof (Nat.mod_upper_bound k 4) as Hk.
  unfold decoded, decode_item. rewrite Nat.add_1_r. cbn [phase_from].
  destruct (k mod 4) as [|[|[|[|m]]]]; [| | | |lia]; simpl;
    f_equal; by rewrite <- app_assoc.
Qed.

Lemma decode_items (items : list node) (constituency : Constituency) (k : nat) :
  fold_left decode_item items (constituency, k) =
  (decoded constituency items k, k + length items).
Proof.
  revert constituency k. induction items as [|x xs IH]; intros c k.
  - unfold decoded. simpl. rewrite !app_nil_r, Nat.add_0_r. by destruct c.
  - cbn [fold_left]. 
    rewrite <- decode_item_decoded.
    destruct (decode_item (c, k) x) as [c' k'] eqn:E.
    assert (k' = k + 1) as -> by (unfold decode_item in E; by simplify_eq).
    rewrite IH. cbn [length fst]. f_equal. lia.
Qed.

Lemma fold_left_flat_map {S X Y} (f : S -> Y -> S) (g : X -> list Y)
    (xs : list X) (st : S) :
  fold_left (fun st x => fold_left f (g x) st) xs st =
  fold_left f (flat_map g xs) st.
Proof.
  revert st. induction xs as [|x xs IH]; intros st; simpl; [done|].
  by rewrite fold_left_app, IH.
Qed.

(** The two nested loops are one pass over the cells, from index 0. *)
Lemma decode_table_decoded (table : node) (constituency : Constituency) :
  decode_table table constituency =
  (decoded constituency (cells table) 0, length (cells table)).
Proof.
  unfold decode_table. rewrite fold_left_flat_map. apply decode_items.
Qed.

Ltac simpl_record :=
  cbn [name candidates parties votes percent electorate decoded fresh
       set_electorate Constituency_init app].

(** What the decode loop appends, cell by cell. *)
Lemma decoded_lookup (constituency : Constituency) (items : list node) (j : nat) :
  let c := decoded (set_electorate (Constituency_init (name constituency))
                                   (electorate constituency)) items 0 in
  candidates c !! j = candidate_text <$> items !! (4 * j) /\
  parties c !! j = plain_text <$> items !! (4 * j + 1) /\
  votes c !! j = plain_text <$> items !! (4 * j + 2) /\
  percent c !! j = percent_text <$> items !! (4 * j + 3).
Proof.
  simpl_record. rewrite !list_lookup_fmap, !phase_from_lookup by lia.
  by rewrite Nat.add_0_r.
Qed.

(** The four lengths after [n] cells: they agree exactly when [n] is a
    multiple of 4. *)
Lemma decoded_lengths (nm : node) (e : string) (items : list node) :
  let c := decoded (fresh nm e) items 0 in
  length (candidates c) = (length items + 3) / 4 /\
  length (parties c) = (length items + 2) / 4 /\
  length (votes c) = (length items + 1) / 4 /\
  length (percent c) = length items / 4.
Proof.
  simpl_record. rewrite !length_fmap, !phase_from_length by lia.
  split_and!; f_equal; lia.
Qed.

(** ** Building the records *)

Lemma build_step_ok (names : list node) (electorates : list string)
    (cs : list Constituency) (k : nat) (table nm : node) (e : string) :
  names !! k = Some nm -> electorates !! k = Some e ->
  build_step names electorates (cs, k) table =
  ret (cs ++ [decoded (fresh nm e) (cells table) 0], k + 1).
Proof.
  intros Hn He. unfold build_step, getitem. rewrite Hn, He. simpl.
  by rewrite decode_table_decoded.
Qed.

Lemma build_step_fail (names : list node) (electorates : list string)
    (cs : list Constituency) (k : nat) (table : node) :
  length names <= k \/ length electorates <= k ->
  build_step names electorates (cs, k) table = raise IndexError.
Proof.
  intros H. unfold build_step.
  destruct (names !! k) as [nm|] eqn:Hn.
  - destruct H as [H|H]; [apply lookup_lt_Some in Hn; lia|].
    unfold getitem at 1. rewrite Hn. simpl. by rewrite getitem_ge.
  - unfold getitem at 1. by rewrite Hn.
Qed.

Lemma build_loop_ok (names : list node) (electorates : list string)
    (tables : list node) (cs : list Constituency) (k : nat) :
  k + length tables <= length names ->
  k + length tables <= length electorates ->
  exists rs,
    for_each (build_step names electorates) tables (cs, k) =
      ret (cs ++ rs, k + length tables) /\
    length rs = length tables /\
    forall i table, tables !! i = Some table ->
      exists nm e,
        names !! (k + i) = Some nm /\ electorates !! (k + i) = Some e /\
        rs !! i = Some (decoded (fresh nm e) (cells table) 0).
Proof.
  revert cs k. induction tables as [|t tables IH]; intros cs k Hn He.
  - exists []. simpl. rewrite app_nil_r, Nat.add_0_r.
    split_and!; [done..|]. intros i table Hi. by rewrite lookup_nil in Hi.
  - simpl in Hn, He.
    destruct (lookup_lt_is_Some_2 names k) as [nm Hnm]; [lia|].
    destruct (lookup_lt_is_Some_2 electorates k) as [e Hel]; [lia|].
    cbn [for_each]. rewrite (build_step_ok _ _ _ _ _ _ _ Hnm Hel). simpl.
    destruct (IH (cs ++ [decoded (fresh nm e) (cells t) 0]) (k + 1))
      as (rs & Hrun & Hlen & Hrs); [lia..|].
    exists (decoded (fresh nm e) (cells t) 0 :: rs).
    rewrite Hrun, <- app_assoc. split_and!.
    + simpl. do 2 f_equal. lia.
    + simpl. by rewrite Hlen.
    + intros [|i] table Hi; simpl in Hi.
      * simplify_eq. exists nm, e. by rewrite Nat.add_0_r.
      * destruct (Hrs i table Hi) as (nm' & e' & ? & ? & ?).
        exists nm', e'. by replace (k + S i) with (k + 1 + i) by lia.
Qed.

Lemma build_loop_fail (names : list node) (electorates : list string)
    (tables : list node) (cs : list Constituency) (k : nat) :
  k <= length names -> k <= length electorates ->
  length names < k + length tables \/ length electorates < k + length tables ->
  for_each (build_step names electorates) tables (cs, k) = raise IndexError.
Proof.
  revert cs k. induction tables as [|t tables IH]; intros cs k Hkn Hke H.
  - simpl in H. lia.
  - cbn [for_each].
    destruct (decide (length names <= k \/ length electorates <= k)) as [Hk|Hk].
    + by rewrite build_step_fail.
    + destruct (lookup_lt_is_Some_2 names k) as [nm Hnm]; [lia|].
      destruct (lookup_lt_is_Some_2 electorates k) as [e Hel]; [lia|].
      rewrite (build_step_ok _ _ _ _ _ _ _ Hnm Hel). simpl.
      apply IH; simpl in H; lia.
Qed.

(** ** Column assignment *)

Lemma setitem_new (labels : list string) (key : string) (values : list value) :
  setitem (DataFrame_new labels) key values =
  ret {| index := seq 0 (length values);
         columns := set_column key values
                      (map (fun c => (c, replicate (length values) NaN)) labels) |}.
Proof.
  unfold setitem, ensure_valid_index, DataFrame_new. cbn [index columns length].
  destruct values as [|v values]; [done|].
  simpl. rewrite length_seq, Nat.eqb_refl, map_map. done.
Qed.

Lemma setitem_same_length (df : DataFrame) (key : string) (values : list value) :
  length values = length (index df) ->
  setitem df key values =
  ret {| index := index df; columns := set_column key values (columns df) |}.
Proof.
  intros H. unfold setitem, ensure_valid_index.
  destruct (Nat.eqb_spec (length (index df)) 0) as [H0|H0]; cbn [andb].
  - replace (length values =? 0) with true by (symmetry; apply Nat.eqb_eq; lia).
    cbn [negb]. by rewrite H, Nat.eqb_refl.
  - by rewrite H, Nat.eqb_refl.
Qed.

Lemma setitem_err (df : DataFrame) (key : string) (values : list value) (e : exn) :
  setitem df key values = inl e -> e = ValueError.
Proof.
  unfold setitem. destruct (_ =? _); unfold ret, raise; congruence.
Qed.

(** How the length of the index moves under an assignment that succeeds. *)
Lemma setitem_index (df df' : DataFrame) (key : string) (values : list value) :
  setitem df key values = inr df' ->
  (length (index df) = 0 /\ length (index df') = length values) \/
  (length (index df) <> 0 /\ length values = length (index df) /\
   length (index df') = length (index df)).
Proof.
  unfold setitem, ensure_valid_index.
  destruct (Nat.eqb_spec (length (index df)) 0) as [H0|H0];
    destruct (Nat.eqb_spec (length values) 0) as [Hv|Hv];
    cbn [negb andb index];
    try rewrite length_seq; try rewrite Nat.eqb_refl;
    try (destruct (Nat.eqb_spec (length values) (length (index df))) as [E|E]);
    unfold ret, raise; intros; simplify_eq; cbn [index];
    rewrite ?length_seq; lia.
Qed.

(** ** [to_pandas] *)

Lemma shape_ok_true (c : Constituency) :
  shape_ok c = true <->
  length (parties c) = length (candidates c) /\
  length (votes c) = length (candidates c) /\
  length (percent c) = length (candidates c).
Proof. unfold shape_ok. rewrite !andb_true_iff, !Nat.eqb_eq. tauto. Qed.

Lemma to_pandas_ok (c : Constituency) :
  shape_ok c = true -> to_pandas c = ret (frame_of c).
Proof.
  intros (Hp & Hv & Hq)%shape_ok_true. unfold to_pandas.
  rewrite setitem_new. cbn [bind ret].
  do 5 (rewrite setitem_same_length
          by (cbn [index]; rewrite ?length_seq, ?length_fmap, ?length_replicate; lia);
        cbn [bind ret index columns]).
  rewrite !length_replicate. reflexivity.
Qed.

Lemma to_pandas_err (c : Constituency) (e : exn) :
  to_pandas c = inl e -> e = ValueError.
Proof.
  unfold to_pandas.
  repeat (match goal with
          | |- context [bind (setitem ?d ?k ?v) _] =>
              let E := fresh "E" in
              destruct (setitem d k v) as [?|?] eqn:E;
              [apply setitem_err in E; cbn [bind]; congruence|cbn [bind]]
          end).
  unfold ret. congruence.
Qed.

Lemma to_pandas_inv (c : Constituency) (df : DataFrame) :
  to_pandas c = inr df -> shape_ok c = true.
Proof.
  unfold to_pandas. intros H. apply shape_ok_true.
  repeat (match type of H with
          | context [bind (setitem ?d ?k ?v) _] =>
              let E := fresh "E" in
              destruct (setitem d k v) as [?|?] eqn:E;
              [cbn [bind] in H; discriminate|
               cbn [bind] in H; apply setitem_index in E]
          end).
  cbn [index DataFrame_new length] in *.
  rewrite ?length_fmap, ?length_replicate in *.
  lia.
Qed.

Lemma to_pandas_bad (c : Constituency) :
  shape_ok c = false -> to_pandas c = raise ValueError.
Proof.
  intros H. destruct (to_pandas c) as [e|df] eqn:E.
  - apply to_pandas_err in E. by subst.
  - apply to_pandas_inv in E. congruence.
Qed.

(** ** [concat] and the assembly loop *)

Lemma concat_new_frame6 (idx : list nat) (a b c d e f : list value) :
  concat (DataFrame_new five) (frame6 idx a b c d e f) = frame6 idx a b c d e f.
Proof. reflexivity. Qed.

Lemma concat_frame6 (i1 i2 : list nat) (a1 b1 c1 d1 e1 f1 a2 b2 c2 d2 e2 f2 : list value) :
  concat (frame6 i1 a1 b1 c1 d1 e1 f1) (frame6 i2 a2 b2 c2 d2 e2 f2) =
  frame6 (i1 ++ i2) (a1 ++ a2) (b1 ++ b2) (c1 ++ c2) (d1 ++ d2) (e1 ++ e2) (f1 ++ f2).
Proof. reflexivity. Qed.

(** The merged table before the names are stripped. *)
Lemma fold_concat_frame6 (gs : list Constituency) (i : list nat)
    (a b c d e f : list value) :
  fold_left concat (frame_of <$> gs) (frame6 i a b c d e f) =
  frame6 (i ++ flat_map (fun c => seq 0 (length (candidates c))) gs)
         (a ++ flat_map (fun c => replicate (length (candidates c)) (Str (name c))) gs)
         (b ++ flat_map (fun c => Str <$> candidates c) gs)
         (c ++ flat_map (fun c => Str <$> parties c) gs)
         (d ++ flat_map (fun c => Str <$> votes c) gs)
         (e ++ flat_map (fun c => Str <$> percent c) gs)
         (f ++ flat_map (fun c => replicate (length (candidates c)) (electorate c)) gs).
Proof.
  revert i a b c d e f. induction gs as [|g gs IH]; intros i a b c d e f.
  - simpl. by rewrite !app_nil_r.
  - cbn [fmap list_fmap fold_left flat_map]. unfold frame_of at 2.
    rewrite concat_frame6, IH. by rewrite <- !app_assoc.
Qed.

Lemma assemble_loop (cs : list Constituency) (df : DataFrame) :
  for_each assemble_step cs df =
  ret (fold_left concat (frame_of <$> List.filter shape_ok cs) df).
Proof.
  revert df. induction cs as [|c cs IH]; intros df; [done|].
  cbn [for_each List.filter]. unfold assemble_step at 1.
  destruct (shape_ok c) eqn:Hc.
  - rewrite (to_pandas_ok c Hc). cbn [ret bind fmap list_fmap fold_left]. apply IH.
  - rewrite (to_pandas_bad c Hc). cbn [raise ret bind]. apply IH.
Qed.

Lemma index_names_length (gs : list Constituency) (f : Constituency -> value) :
  length (flat_map (fun c => replicate (length (candidates c)) (f c)) gs) =
  length (flat_map (fun c => seq 0 (length (candidates c))) gs).
Proof.
  induction gs as [|g gs IH]; [done|].
  cbn [flat_map]. by rewrite !length_app, length_replicate, length_seq, IH.
Qed.

Lemma strip_names (gs : list Constituency) :
  str_replace "," "" <$>
    flat_map (fun c => replicate (length (candidates c)) (Str (name c))) gs =
  flat_map (fun c => replicate (length (candidates c))
                               (Str (Py.replace "," "" (name c)))) gs.
Proof.
  induction gs as [|g gs IH]; [done|].
  cbn [flat_map]. by rewrite fmap_app, fmap_replicate, IH.
Qed.

(** The whole assembly: the records of good shape, merged in order, or the
    empty five-column frame when there is none. *)
Lemma assemble_spec (cs : list Constituency) :
  assemble cs =
  ret (match List.filter shape_ok cs with
       | [] => DataFrame_new five
       | g :: gs => merged (g :: gs)
       end).
Proof.
  unfold assemble. rewrite assemble_loop.
  destruct (List.filter shape_ok cs) as [|g gs]; [reflexivity|].
  cbn [fmap list_fmap fold_left]. change (DataFrame_new _) with (DataFrame_new five).
  unfold frame_of at 2. rewrite concat_new_frame6, fold_concat_frame6.
  cbn [bind ret].
  change (getcol (frame6 ?i ?a ?b ?c ?d ?e ?f) "names") with (ret a).
  cbn [bind ret].
  rewrite setitem_same_length.
  - unfold merged. cbn [flat_map].
    rewrite fmap_app, fmap_replicate, strip_names. reflexivity.
  - cbn [index frame6]. rewrite length_fmap, !length_app, length_replicate, length_seq.
    by rewrite index_names_length.
Qed.

(** ** Rows and csv records *)

Lemma rows_length (df : DataFrame) : length (rows df) = length (index df).
Proof. unfold rows. by rewrite length_map, length_seq. Qed.

Lemma rows_width (df : DataFrame) :
  Forall (fun r => length r = length (labels df)) (rows df).
Proof.
  unfold rows, labels. apply Forall_forall. intros r Hr.
  apply list_elem_of_fmap in Hr as (i & -> & _). unfold row.
  by rewrite !length_map.
Qed.

Lemma nth_replicate {A} (i n : nat) (x d : A) :
  i < n -> nth i (replicate n x) d = x.
Proof.
  intros Hi. rewrite nth_lookup, lookup_replicate_2; done.
Qed.

Lemma Forall_nth_default {A} (P : A -> Prop) (l : list A) (d : A) (i : nat) :
  Forall P l -> P d -> P (nth i l d).
Proof.
  intros Hl Hd. rewrite nth_lookup.
  destruct (l !! i) as [x|] eqn:E; simpl; [|done].
  by eapply Forall_lookup_1.
Qed.

Lemma zip_drop_labels {A B C} (f : B -> list C) (ls : list A) (rs : list B) :
  length ls = length rs ->
  map (fun '(l, r) => [] ++ f r) (zip ls rs) = map f rs.
Proof.
  revert rs. induction ls as [|l ls IH]; intros [|r rs] H; simplify_eq/=; [done|].
  f_equal. auto.
Qed.

(** With [index=False, header=False] the records are the rows, printed. *)
Lemma to_csv_records_plain (df : DataFrame) :
  to_csv_records df false false = map (map csv_field) (rows df).
Proof.
  unfold to_csv_records. cbn [app].
  apply zip_drop_labels. by rewrite rows_length.
Qed.

Lemma frame_of_row (c : Constituency) (i : nat) :
  i < length (candidates c) -> rows (frame_of c) !! i = Some (row (frame_of c) i).
Proof.
  intros Hi. unfold rows. rewrite list_lookup_fmap.
  cbn [frame_of frame6 index]. rewrite length_seq, lookup_seq_lt by done. done.
Qed.

(** ** What [build] returns *)

Lemma build_inv (big_table : node) (cs : list Constituency) :
  build big_table = inr cs ->
  Forall (fun p => is_Some (Re.search decimal (text p))) (scanned_paragraphs big_table) /\
  length cs = length (find_all "table" big_table) /\
  forall k table, find_all "table" big_table !! k = Some table ->
    exists nm p,
      bold_markers big_table !! k = Some nm /\
      scanned_paragraphs big_table !! k = Some p /\
      cs !! k = Some (decoded (fresh nm (electorate_of p)) (cells table) 0).
Proof.
  unfold build. intros H.
  destruct (matched_or_not (scanned_paragraphs big_table)) as [Hall|Hex].
  2:{ unfold scanned_paragraphs in Hex.
      rewrite (collect_rows_bad _ [] [] Hex) in H. discriminate. }
  split; [done|]. unfold scanned_paragraphs in Hall.
  rewrite (collect_rows_ok _ [] [] Hall) in H. cbn [bind ret app] in H.
  fold (bold_markers big_table) in H. fold (scanned_paragraphs big_table) in H.
  set (names := bold_markers big_table) in *.
  set (els := electorate_of <$> scanned_paragraphs big_table) in *.
  set (tables := find_all "table" big_table) in *.
  destruct (decide (length tables <= length names /\ length tables <= length els))
    as [[Hn He]|Hshort].
  - destruct (build_loop_ok names els tables [] 0) as (rs & Hrun & Hlen & Hrs);
      [simpl; lia..|].
    rewrite Hrun in H. cbn [bind ret app] in H. unfold ret in H. simplify_eq.
    split; [done|]. intros k table Hk.
    destruct (Hrs k table Hk) as (nm & e & Hnm & He' & Hc).
    simpl in Hnm, He'. unfold els in He'.
    apply list_lookup_fmap_Some in He' as (p & -> & Hp).
    by exists nm, p.
  - rewrite build_loop_fail in H; [discriminate|simpl; lia..].
Qed.

(** ** What [parse_document] returns *)

Lemma parse_document_inv (soup : node) (df : DataFrame) :
  parse_document soup = inr df ->
  exists big_table cs,
    find_all "table" soup !! 1 = Some big_table /\
    build big_table = inr cs /\ assemble cs = inr df.
Proof.
  unfold parse_document, parse_table, getitem. intros H.
  destruct (find_all "table" soup !! 1) as [big_table|]; [|done].
  cbn [bind ret] in H. destruct (build big_table) as [e|cs] eqn:Hb; [done|].
  by exists big_table, cs.
Qed.



(** ** Commas *)

Lemma decoded_clean (nm : node) (p : node) (items : list node) :
  is_Some (Re.search decimal (text p)) ->
  clean (decoded (fresh nm (electorate_of p)) items 0).
Proof.
  intros Hp. unfold clean. simpl_record. split.
  - rewrite !Forall_app. split_and!; apply Forall_fmap, Forall_forall;
      intros item _; simpl.
    + apply replace_char_keeps, replace_char_gone.
    + apply replace_char_gone.
    + apply replace_char_gone.
    + apply replace_char_keeps, replace_char_gone.
  - unfold electorate_of. destruct Hp as [exp ->]. apply replace_char_gone.
Qed.

Lemma build_clean (big_table : node) (cs : list Constituency) :
  build big_table = inr cs -> Forall clean cs.
Proof.
  intros (Hall & Hlen & Hcs)%build_inv. apply Forall_lookup. intros k c Hk.
  destruct (lookup_lt_is_Some_2 (find_all "table" big_table) k) as [table Ht].
  { rewrite <- Hlen. by eapply lookup_lt_Some. }
  destruct (Hcs k table Ht) as (nm & p & _ & Hp & Hc). simplify_eq.
  apply decoded_clean. exact (Forall_lookup_1 _ _ _ _ Hall Hp).
Qed.

Lemma clean_fields (c : Constituency) :
  clean c ->
  Forall comma_free (Str <$> candidates c) /\
  Forall comma_free (Str <$> parties c) /\
  Forall comma_free (Str <$> votes c) /\
  Forall comma_free (Str <$> percent c) /\
  comma_free (electorate c).
Proof.
  intros [H He]. rewrite !Forall_app in H. destruct H as (H1 & H2 & H3 & H4).
  split_and!; try done; by apply Forall_fmap.
Qed.

Lemma merged_comma_free (gs : list Constituency) :
  Forall clean gs ->
  Forall (fun col => Forall comma_free col.2) (columns (merged gs)).
Proof.
  intros Hgs. unfold merged, frame6. cbn [columns].
  repeat apply Forall_cons_2; try apply Forall_nil_2; cbn [snd];
    apply List.Forall_flat_map; (eapply Forall_impl; [exact Hgs|]);
    intros c Hc; apply clean_fields in Hc as (? & ? & ? & ? & ?); try done.
  - apply Forall_replicate. unfold comma_free. cbn [csv_field].
    apply replace_char_gone.
  - by apply Forall_replicate.
Qed.

Lemma rows_comma_free (df : DataFrame) :
  Forall (fun col => Forall comma_free col.2) (columns df) ->
  Forall (Forall comma_free) (rows df).
Proof.
  intros Hcols. unfold rows. apply Forall_fmap, Forall_forall. intros i _.
  simpl. unfold row. apply Forall_fmap. eapply Forall_impl; [exact Hcols|].
  intros col Hcol. simpl. by apply Forall_nth_default.
Qed.

(** ** What [parse] writes *)

Lemma parse_writes (BeautifulSoup : string -> node)
    (csv_writer : list (list string) -> string)
    (fs : gmap string string) (file_handle content : string) (df : DataFrame) :
  fs !! file_handle = Some content ->
  parse_document (BeautifulSoup content) = inr df ->
  parse BeautifulSoup csv_writer fs file_handle false = (inr df, fs) /\
  parse BeautifulSoup csv_writer fs file_handle true =
    (inr df, <[Py.drop_last 4 file_handle +:+ ".csv" :=
                 csv_writer (to_csv_records df false false)]> fs).
Proof. intros Hfile Hdoc. unfold parse. by rewrite Hfile, Hdoc. Qed.

(** ** Cell count and shape *)

(** A nested table gives a record of good shape exactly when its number of
    cells is a multiple of 4. *)
Lemma decoded_shape (nm : node) (e : string) (items : list node) :
  shape_ok (decoded (fresh nm e) items 0) = true <-> length items mod 4 = 0.
Proof.
  rewrite shape_ok_true.
  destruct (decoded_lengths nm e items) as (-> & -> & -> & ->).
  generalize (length items). intros n.
  pose proof (Nat.div_mod_eq n 4).
  pose proof (Nat.div_mod_eq (n + 1) 4).
  pose proof (Nat.div_mod_eq (n + 2) 4).
  pose proof (Nat.div_mod_eq (n + 3) 4).
  pose proof (Nat.mod_upper_bound n 4).
  pose proof (Nat.mod_upper_bound (n + 1) 4).
  pose proof (Nat.mod_upper_bound (n + 2) 4).
  pose proof (Nat.mod_upper_bound (n + 3) 4).
  lia.
Qed.

(** ** Plain tables *)

Lemma plain_row_cells (row : node) :
  plain_row row -> find_all "td" row = contents row /\ find_all "tr" row = [].
Proof.
  intros [Hname Hcells]. destruct row as [s|s|t kids]; try done.
  cbn [contents] in *. rewrite !find_all_tag. clear Hname.
  induction Hcells as [|k kids (Hk & Htr & Htd) _ [IH1 IH2]]; [done|].
  cbn [flat_map]. rewrite Hk, Htr, Htd, IH1, IH2.
  destruct k as [s|s|t' kids']; try done. cbn [is_named] in *.
  apply String.eqb_eq in Hk as ->. done.
Qed.

(** In a plain table the decode loop sees the cells of the rows one row
    after the other, which is also the order of [find_all] on the table. *)
Lemma plain_table_cells (t : string) (rows : list node) :
  Forall plain_row rows ->
  cells (Tag t rows) = flat_map contents rows /\
  find_all "td" (Tag t rows) = flat_map contents rows.
Proof.
  intros Hrows. unfold cells. rewrite !find_all_tag.
  induction Hrows as [|row rows Hrow _ [IH1 IH2]]; [done|].
  destruct (plain_row_cells row Hrow) as [Htd Htr].
  destruct Hrow as [Hname Hcells].
  cbn [flat_map]. rewrite Hname, Htr, Htd, IH2.
  destruct row as [s|s|t' kids']; try done. cbn [is_named] in Hname.
  apply String.eqb_eq in Hname as ->.
  split; [|done]. rewrite app_nil_r. cbn [app flat_map].
  by rewrite Htd, IH1.
Qed.

(** ** The model on concrete values *)

Example replace_values :
  Py.replace "," "" "1,2,,3" = "123"%string /\
  Py.replace "ab" "X" "aabab" = "aXX"%string /\
  Py.replace "aa" "b" "aaa" = "ba"%string /\
  Py.replace "Electorate: " "" "Electorate: 54,321" = "54,321"%string.
Proof. split_and!; reflexivity. Qed.

Example output_name :
  Py.drop_last 4 "data.htm" +:+ ".csv" = "data.csv"%string /\
  Py.drop_last 4 "data.html" +:+ ".csv" = "data..csv"%string.
Proof. split; reflexivity. Qed.

Example anytown_table_is_plain :
  Forall plain_row (contents (Examples.nested Examples.doe)).
Proof. repeat constructor. Qed.

Example orderly_values :
  orderly (Examples.nested Examples.doe) = true /\
  orderly Examples.table_in_cell = false.
Proof. split; reflexivity. Qed.

(** ** Rows of a frame *)

Lemma rows_frame6_app (i1 i2 : list nat)
    (a1 b1 c1 d1 e1 f1 a2 b2 c2 d2 e2 f2 : list value) :
  length a1 = length i1 -> length b1 = length i1 -> length c1 = length i1 ->
  length d1 = length i1 -> length e1 = length i1 -> length f1 = length i1 ->
  rows (frame6 (i1 ++ i2) (a1 ++ a2) (b1 ++ b2) (c1 ++ c2) (d1 ++ d2)
               (e1 ++ e2) (f1 ++ f2)) =
  rows (frame6 i1 a1 b1 c1 d1 e1 f1) ++ rows (frame6 i2 a2 b2 c2 d2 e2 f2).
Proof.
  intros Ha Hb Hc Hd He Hf. unfold rows. cbn [index frame6].
  rewrite length_app, seq_app, map_app. f_equal.
  - apply map_ext_in. intros i Hi%in_seq.
    unfold row, frame6. cbn [columns map snd].
    by rewrite !app_nth1 by lia.
  - replace (seq (0 + length i1) (length i2))
      with (map (Nat.add (length i1)) (seq 0 (length i2)))
      by (change (map ?g ?l) with (g <$> l); rewrite fmap_add_seq;
          f_equal; lia).
    rewrite map_map. apply map_ext_in. intros i _. unfold row, frame6.
    cbn [columns map snd].
    rewrite <- Ha at 1. rewrite <- Hb at 1. rewrite <- Hc at 1.
    rewrite <- Hd at 1. rewrite <- He at 1. rewrite <- Hf at 1.
    by rewrite !app_nth2_plus.
Qed.

Lemma rows_of_columns (N E : value) (idx : list nat) (xs bs vs qs : list string) :
  length idx = length xs -> length bs = length xs ->
  length vs = length xs -> length qs = length xs ->
  rows (frame6 idx (replicate (length xs) N) (Str <$> xs) (Str <$> bs)
               (Str <$> vs) (Str <$> qs) (replicate (length xs) E)) =
  (fun '(a, b, v, q) => [N; Str a; Str b; Str v; Str q; E])
    <$> zip (zip (zip xs bs) vs) qs.
Proof.
  revert idx bs vs qs.
  induction xs as [|a xs IH]; intros [|i idx] [|b bs] [|v vs] [|q qs];
    cbn [length]; intros Hi Hb Hv Hq; try discriminate; [reflexivity|].
  etrans.
  { apply (rows_frame6_app [i] idx [N] [Str a] [Str b] [Str v] [Str q] [E]);
      reflexivity. }
  cbn [zip_with fmap list_fmap]. change (rows (frame6 [i] _ _ _ _ _ _))
    with [[N; Str a; Str b; Str v; Str q; E]].
  cbn [app]. f_equal. apply IH; lia.
Qed.

(** The rows of the merged table are the rows of its records, in order. *)
Lemma rows_merged (gs : list Constituency) :
  Forall (fun c => shape_ok c = true) gs ->
  rows (merged gs) = flat_map record_rows gs.
Proof.
  induction 1 as [|g gs (Hp & Hv & Hq)%shape_ok_true _ IH]; [reflexivity|].
  unfold merged. cbn [flat_map].
  rewrite rows_frame6_app
    by (rewrite ?length_fmap, ?length_replicate, ?length_seq; lia).
  f_equal; [|exact IH].
  rewrite rows_of_columns by (rewrite ?length_seq; lia). reflexivity.
Qed.

Lemma filter_shape_ok (cs : list Constituency) :
  Forall (fun c => shape_ok c = true) (List.filter shape_ok cs).
Proof.
  apply Forall_forall. intros c Hc%list_elem_of_In.
  by apply List.filter_In in Hc as [_ Hc].
Qed.

(** ** From cells to rows *)

(** The four phases of a cell stream, zipped, are its quadruples. *)
Lemma zip_phases {A B} (f0 f1 f2 f3 : A -> B) (items : list A) :
  zip (zip (zip (f0 <$> phase_from 0 0 items) (f1 <$> phase_from 1 0 items))
           (f2 <$> phase_from 2 0 items))
      (f3 <$> phase_from 3 0 items) =
  (fun '(a, b, c, d) => (f0 a, f1 b, f2 c, f3 d)) <$> quadruples items.
Proof.
  induction items as [|a|a b|a b c|a b c d items IH] using list_ind4;
    try reflexivity.
  rewrite !phase_from_chunk by lia.
  cbn [nth fmap list_fmap zip_with quadruples]. by rewrite IH.
Qed.

Lemma decoded_record_rows (nm : node) (e : string) (items : list node) :
  record_rows (decoded (fresh nm e) items 0) =
  (fun '(a, b, c, d) =>
     [Str (Py.replace "," "" (text nm)); Str (candidate_text a);
      Str (plain_text b); Str (plain_text c); Str (percent_text d); Str e])
    <$> quadruples items.
Proof.
  unfold record_rows. simpl_record. rewrite zip_phases.
  rewrite <- list_fmap_compose. apply list_fmap_ext.
  by intros _ [[[a b] c] d] _.
Qed.

Lemma decoded_shape_bool (nm : node) (e : string) (items : list node) :
  shape_ok (decoded (fresh nm e) items 0) = (length items mod 4 =? 0).
Proof.
  destruct (Nat.eqb_spec (length items mod 4) 0) as [H|H].
  - by apply decoded_shape.
  - destruct (shape_ok _) eqn:E; [|done]. by apply decoded_shape in E.
Qed.

Lemma flat_map_filter {A B} (P : A -> bool) (g : A -> list B) (l : list A) :
  flat_map g (List.filter P l) = flat_map (fun x => if P x then g x else []) l.
Proof.
  induction l as [|x l IH]; [done|]. cbn [List.filter flat_map].
  destruct (P x); cbn [flat_map app]; by rewrite IH.
Qed.

(** ** What [build] returns, as one list *)

(** The bold tag, the paragraph and the nested table that meet in a
    record: the [k]-th of each. *)
Lemma build_lengths (big_table : node) (cs : list Constituency) :
  build big_table = inr cs ->
  length (find_all "table" big_table) <= length (bold_markers big_table) /\
  length (find_all "table" big_table) <= length (scanned_paragraphs big_table).
Proof.
  intros (_ & _ & Hcs)%build_inv.
  assert (forall k, k < length (find_all "table" big_table) ->
            k < length (bold_markers big_table) /\
            k < length (scanned_paragraphs big_table)) as Hk.
  { intros k Hk. destruct (lookup_lt_is_Some_2 _ _ Hk) as [table Ht].
    destruct (Hcs k table Ht) as (nm & p & Hnm & Hp & _).
    split; by eapply lookup_lt_Some. }
  destruct (length (find_all "table" big_table)) as [|n]; [lia|].
  destruct (Hk n); lia.
Qed.

Lemma build_zip (big_table : node) (cs : list Constituency) :
  build big_table = inr cs ->
  cs = (fun '(nm, p, table) =>
          decoded (fresh nm (electorate_of p)) (cells table) 0)
         <$> zip (zip (bold_markers big_table) (scanned_paragraphs big_table))
                 (find_all "table" big_table).
Proof.
  intros Hbuild. destruct (build_lengths _ _ Hbuild) as [Hn Hp].
  destruct (build_inv _ _ Hbuild) as (_ & Hlen & Hcs).
  apply (list_eq_same_length _ _ (length (find_all "table" big_table)));
    [|done|].
  - rewrite length_fmap, !length_zip_with. lia.
  - intros k x y Hk Hx Hy.
    apply list_lookup_fmap_Some in Hy as ([[nm p] table] & -> & Hy).
    apply lookup_zip_with_Some in Hy as (? & ? & [= <- <-] & Hy & Ht).
    apply lookup_zip_with_Some in Hy as (? & ? & [= <- <-] & Hnm & Hpp).
    destruct (Hcs k table Ht) as (nm' & p' & ? & ? & ?). by simplify_eq.
Qed.

(** ** The rows of the final table *)

Lemma assemble_rows (cs : list Constituency) (df : DataFrame) :
  assemble cs = inr df ->
  rows df = flat_map record_rows (List.filter shape_ok cs).
Proof.
  rewrite assemble_spec. unfold ret. intros [= <-].
  pose proof (filter_shape_ok cs) as Hgood.
  destruct (List.filter shape_ok cs) as [|g gs]; [done|]. by apply rows_merged.
Qed.

Lemma flat_map_fmap {A B C} (f : A -> B) (g : B -> list C) (l : list A) :
  flat_map g (f <$> l) = flat_map (fun x => g (f x)) l.
Proof. induction l as [|x l IH]; [done|]. cbn. by rewrite IH. Qed.

Lemma decoded_table_rows (nm p table : node) :
  (if shape_ok (decoded (fresh nm (electorate_of p)) (cells table) 0)
   then record_rows (decoded (fresh nm (electorate_of p)) (cells table) 0)
   else []) = table_rows nm p table.
Proof.
  unfold table_rows. rewrite decoded_shape_bool.
  destruct (_ =? _); [apply decoded_record_rows|done].
Qed.

(** The final table, row by row, from the document. *)
Lemma parse_rows (soup : node) (df : DataFrame) :
  parse_document soup = inr df ->
  exists big_table cs,
    find_all "table" soup !! 1 = Some big_table /\
    build big_table = inr cs /\
    rows df =
      flat_map (fun '(nm, p, table) => table_rows nm p table)
        (zip (zip (bold_markers big_table) (scanned_paragraphs big_table))
             (find_all "table" big_table)).
Proof.
  intros (big_table & cs & Hbig & Hbuild & Hdf)%parse_document_inv.
  exists big_table, cs. split_and!; [done..|].
  rewrite (assemble_rows _ _ Hdf), flat_map_filter.
  rewrite (build_zip _ _ Hbuild) at 1. rewrite flat_map_fmap.
  apply flat_map_ext. intros [[nm p] table]. apply decoded_table_rows.
Qed.

Lemma quadruples_length {A} (l : list A) : length (quadruples l) = length l / 4.
Proof.
  induction l as [|a|a b|a b c|a b c d l IH] using list_ind4; try reflexivity.
  cbn [quadruples length]. rewrite IH.
  change (S (S (S (S (length l))))) with (4 + length l).
  replace (4 + length l) with (length l + 1 * 4) by lia.
  rewrite Nat.div_add by done. lia.
Qed.

Lemma flat_map_length_sum {A B} (g : A -> list B) (l : list A) :
  length (flat_map g l) = sum_list ((fun x => length (g x)) <$> l).
Proof.
  induction l as [|x l IH]; [done|]. cbn. by rewrite length_app, IH.
Qed.

Lemma zip_paragraph_scanned {A B} (names : list A) (ps : list node)
    (tables : list B) (nm : A) (p : node) (table : B) :
  (nm, p, table) ∈ zip (zip names ps) tables -> p ∈ ps.
Proof.
  intros [k Hk]%list_elem_of_lookup_1.
  apply lookup_zip_with_Some in Hk as (? & ? & [= <- <-] & Hk & _).
  apply lookup_zip_with_Some in Hk as (? & ? & [= <- <-] & _ & Hp).
  by eapply list_elem_of_lookup_2.
Qed.

(** * The claims *)

(** ** C1: the decode loop *)

(** C1, as stated, fails twice.  For a percentage cell the specification
    strips a trailing per-cent sign, the code removes every per-cent sign:
    on the cell [4%5%] the code appends [45], the stated rule gives [4%5].
    And the loop does not go through the cells of the table in flat
    document order when a row lies inside a row: a table written inside the
    one cell of another has five cells in document order, of which the
    loop over the outer table consumes the last four twice, nine in all. *)
Lemma decode_not_as_stated :
  percent (decode_table Examples.odd_percent (Constituency_init "X")).1 = ["45"%string] /\
  spec_percent_text (Examples.td "4%5%") = "4%5"%string /\
  percent (decode_table Examples.odd_percent (Constituency_init "X")).1 <>
    [spec_percent_text (Examples.td "4%5%")] /\
  text <$> find_all "td" Examples.table_in_cell =
    ["J. Doe*Indep1,23445.6%"; "J. Doe*"; "Indep"; "1,234"; "45.6%"]%string /\
  text <$> cells Examples.table_in_cell =
    ["J. Doe*Indep1,23445.6%"; "J. Doe*"; "Indep"; "1,234"; "45.6%";
     "J. Doe*"; "Indep"; "1,234"; "45.6%"]%string /\
  (decode_table Examples.table_in_cell (Constituency_init "X")).2 = 9 /\
  candidates (decode_table Examples.table_in_cell (Constituency_init "X")).1 =
    ["J. DoeIndep123445.6%"; "45.6%"; "45.6%"]%string.
Proof. split_and!; solve [reflexivity|discriminate]. Qed.

(** C1, amended: for every nested table the decode loop goes through the
    rows found below the table at any depth, in document order, and for
    each row through the cells found below that row at any depth, in
    document order, with a running index that starts at 0 and ends at the
    number of cells gone through (one increment per cell).  The cell at
    index [4 j] is appended as the [j]-th new candidate with every comma
    and every asterisk removed, the cells at [4 j + 1] and [4 j + 2] as
    party and votes with every comma removed, and the cell at [4 j + 3] as
    percentage with every comma and every per-cent sign removed, not only
    a trailing one.  Name and electorate are left alone.  When below the
    table no row lies inside a row and every cell lies inside a row, the
    cells gone through are the cells of the table in document order; a
    cell of a row that lies inside another row is gone through once for
    each of the two rows. *)
Theorem decode_table_cycle (table : node) (constituency : Constituency) :
  exists c new_candidates new_parties new_votes new_percent,
    decode_table table constituency = (c, length (cells table)) /\
    name c = name constituency /\ electorate c = electorate constituency /\
    candidates c = candidates constituency ++ new_candidates /\
    parties c = parties constituency ++ new_parties /\
    votes c = votes constituency ++ new_votes /\
    percent c = percent constituency ++ new_percent /\
    (forall j,
       new_candidates !! j =
         (fun item => Py.replace "*" "" (Py.replace "," "" (text item)))
           <$> cells table !! (4 * j) /\
       new_parties !! j =
         (fun item => Py.replace "," "" (text item)) <$> cells table !! (4 * j + 1) /\
       new_votes !! j =
         (fun item => Py.replace "," "" (text item)) <$> cells table !! (4 * j + 2) /\
       new_percent !! j =
         (fun item => Py.replace "%" "" (Py.replace "," "" (text item)))
           <$> cells table !! (4 * j + 3)) /\
    Forall (fun s => Py.contains "," s = false /\ Py.contains "*" s = false)
           new_candidates /\
    Forall (fun s => Py.contains "," s = false) (new_parties ++ new_votes) /\
    Forall (fun s => Py.contains "," s = false /\ Py.contains "%" s = false)
           new_percent /\
    cells table = flat_map (find_all "td") (find_all "tr" table) /\
    (orderly table = true -> cells table = find_all "td" table) /\
    (forall r r' item,
       r ∈ find_all "tr" table -> r' ∈ find_all "tr" r ->
       item ∈ find_all "td" r' ->
       exists i j, i <> j /\
         cells table !! i = Some item /\ cells table !! j = Some item).
Proof.
  rewrite decode_table_decoded.
  eexists _, _, _, _, _. split; [reflexivity|]. simpl_record.
  split_and!; try reflexivity;
    [| | | |apply orderly_cells|by apply nested_row_twice].
  - intros j. rewrite !list_lookup_fmap, !phase_from_lookup by lia.
    by rewrite Nat.add_0_r.
  - apply Forall_fmap, Forall_forall. intros item _. simpl. split.
    + apply replace_char_keeps, replace_char_gone.
    + apply replace_char_gone.
  - rewrite Forall_app. split; apply Forall_fmap, Forall_forall;
      intros item _; apply replace_char_gone.
  - apply Forall_fmap, Forall_forall. intros item _. simpl. split.
    + apply replace_char_keeps, replace_char_gone.
    + apply replace_char_gone.
Qed.

(** ** C2: [to_pandas] on a record of good shape *)

(** C2: a record whose four sequences have one length converts without
    error into a frame of six columns with one row per candidate; row [i]
    holds the name, the [i]-th candidate, party, votes and percentage, and
    the electorate, so every row carries name and electorate as they are. *)
Theorem to_pandas_rows (c : Constituency) :
  length (parties c) = length (candidates c) ->
  length (votes c) = length (candidates c) ->
  length (percent c) = length (candidates c) ->
  exists df,
    to_pandas c = inr df /\
    labels df = ["names"; "candidates"; "parties"; "votes"; "percent";
                 "electorate"]%string /\
    length (rows df) = length (candidates c) /\
    Forall (fun r => r !! 0 = Some (Str (name c)) /\ r !! 5 = Some (electorate c))
           (rows df) /\
    forall i a b v q,
      candidates c !! i = Some a -> parties c !! i = Some b ->
      votes c !! i = Some v -> percent c !! i = Some q ->
      rows df !! i = Some [Str (name c); Str a; Str b; Str v; Str q; electorate c].
Proof.
  intros Hp Hv Hq. exists (frame_of c).
  split; [apply to_pandas_ok, shape_ok_true; done|].
  split; [reflexivity|].
  split; [rewrite rows_length; cbn [frame_of frame6 index]; by rewrite length_seq|].
  split.
  - apply Forall_forall. intros r Hr. unfold rows in Hr.
    apply list_elem_of_fmap in Hr as (i & -> & Hi).
    cbn [frame_of frame6 index] in Hi. rewrite length_seq in Hi.
    apply elem_of_seq in Hi. cbn [row frame_of frame6 columns map snd lookup list_lookup].
    by rewrite !nth_replicate by lia.
  - intros i a b v q Ha Hb Hv' Hq'.
    pose proof (lookup_lt_Some _ _ _ Ha) as Hi.
    rewrite frame_of_row by done.
    cbn [row frame_of frame6 columns map snd].
    rewrite !nth_replicate by lia.
    rewrite !nth_lookup, !list_lookup_fmap, Ha, Hb, Hv', Hq'. done.
Qed.

Lemma to_pandas_rows_witness :
  exists df, to_pandas Examples.two_candidates = inr df /\ length (rows df) = 2.
Proof.
  destruct (to_pandas_rows Examples.two_candidates eq_refl eq_refl eq_refl)
    as (df & Hdf & _ & Hlen & _).
  exists df. split; [exact Hdf|exact Hlen].
Defined.

(** ** C3: a record of bad shape *)

(** C3: a record whose four sequences do not have one length makes
    [to_pandas] raise [ValueError]; the assembly loop catches it and goes
    on, so the run with that record gives the very table of the run without
    it, and the assembly as a whole always returns a table. *)
Theorem malformed_record_skipped (c : Constituency) :
  ~ (length (parties c) = length (candidates c) /\
     length (votes c) = length (candidates c) /\
     length (percent c) = length (candidates c)) ->
  to_pandas c = inl ValueError /\
  forall before after,
    (forall df, for_each assemble_step (before ++ c :: after) df =
                for_each assemble_step (before ++ after) df) /\
    assemble (before ++ c :: after) = assemble (before ++ after) /\
    exists df, assemble (before ++ c :: after) = inr df.
Proof.
  intros Hbad.
  assert (shape_ok c = false) as Hc.
  { destruct (shape_ok c) eqn:E; [|done]. by apply shape_ok_true in E. }
  split; [by apply to_pandas_bad|]. intros before after.
  assert (List.filter shape_ok (before ++ c :: after) =
          List.filter shape_ok (before ++ after)) as Hfilter.
  { rewrite !List.filter_app. cbn [List.filter]. by rewrite Hc. }
  split_and!.
  - intros df. by rewrite !assemble_loop, Hfilter.
  - by rewrite !assemble_spec, Hfilter.
  - rewrite assemble_spec. eauto.
Qed.

Lemma malformed_record_skipped_witness :
  assemble [Examples.no_percent; Examples.two_candidates] =
  assemble [Examples.two_candidates].
Proof.
  refine (proj1 (proj2 (proj2 (malformed_record_skipped Examples.no_percent _) [] _))).
  vm_compute. intros (_ & _ & H). discriminate H.
Defined.

(** ** C4: locating the results table *)

(** C4, amended: the results table is the second table of the document in
    document order, at whatever depth.  The tables the code lists are the
    tags named [table] below the root at any depth; below a tag they come
    child by child, a child before what is found below it and that before
    the next child; so the tables found below the first table directly
    follow it in the list, and when the first table holds a table, the
    first one it holds is the results table.  A document with fewer than
    two tables in all makes the first statement of the extraction raise
    [IndexError], so nothing after it runs. *)
Theorem results_table_second_in_document_order (soup : node) :
  (forall t, t ∈ find_all "table" soup <->
             t ∈ descendants soup /\ is_named "table" t = true) /\
  (forall tag kids, soup = Tag tag kids ->
     find_all "table" soup =
     flat_map (fun k => (if is_named "table" k then [k] else []) ++
                        find_all "table" k) kids) /\
  match find_all "table" soup with
  | first :: big_table :: rest =>
      getitem (find_all "table" soup) 1 = inr big_table /\
      parse_document soup = parse_table big_table /\
      (exists later, big_table :: rest = find_all "table" first ++ later) /\
      (forall nested more,
         find_all "table" first = nested :: more -> big_table = nested)
  | _ =>
      length (find_all "table" soup) < 2 /\
      getitem (find_all "table" soup) 1 = inl IndexError /\
      parse_document soup = inl IndexError
  end.
Proof.
  split; [intros t; apply find_all_descendant|].
  split; [intros tag kids ->; apply find_all_tag|].
  unfold parse_document.
  destruct (find_all "table" soup) as [|first [|big_table rest]] eqn:Htables;
    simpl; split_and!; try done; try lia.
  - by apply (find_all_head "table" soup).
  - intros nested more Hnested.
    destruct (find_all_head "table" soup first (big_table :: rest) Htables)
      as [later Hlater].
    rewrite Hnested in Hlater. by injection Hlater.
Qed.

(** ** C5: collecting the electorates *)

(** C5, amended: every paragraph in the rows of the results table is
    searched for [Electorate: ] followed by one or more characters that
    are decimal digits (whatever [\d] accepts) or commas.  When every
    paragraph has a match, the loop returns the bold tags and, for each
    paragraph in order, the whole run of digits and commas that follows
    the literal, with the commas removed, which leaves decimal digits
    only.  When some paragraph has no match, the loop raises and the
    extraction ends with that error; nothing is skipped. *)
Theorem collect_electorates (big_table : node) :
  let ps := scanned_paragraphs big_table in
  let collected := for_each collect_row (find_all "tr" big_table) ([], []) in
  (Forall (fun p => is_Some (Re.search decimal (text p))) ps /\
   collected = inr (bold_markers big_table, electorate_of <$> ps) /\
   Forall (fun p => exists pre r post,
             text p = pre +:+ "Electorate: " +:+ r +:+ post /\
             r <> EmptyString /\ Py.all_chars (Re.in_class decimal) r = true /\
             match post with
             | EmptyString => True
             | String c _ => Re.in_class decimal c = false
             end /\
             electorate_of p = Py.replace "," "" r /\
             Py.all_chars decimal (electorate_of p) = true) ps)
  \/
  (Exists (fun p => Re.search decimal (text p) = None) ps /\
   collected = inl AttributeError /\
   parse_table big_table = inl AttributeError).
Proof.
  intros ps collected.
  destruct (matched_or_not ps) as [Hall|Hex]; [left|right].
  - split_and!; [done| |].
    + unfold collected. by rewrite (collect_rows_ok _ [] [] Hall).
    + eapply Forall_impl; [exact Hall|]. intros p Hp.
      destruct (electorate_of_matched p Hp)
        as (pre & r & post & ? & ? & ? & ? & ? & ? & ?).
      by exists pre, r, post.
  - assert (collected = inl AttributeError) as Hc
      by (unfold collected; by rewrite (collect_rows_bad _ [] [] Hex)).
    split_and!; [done..|].
    unfold parse_table, build. fold collected. by rewrite Hc.
Qed.

(** ** C6: the columns of the merged table *)


(** ** C7: no comma in the final table *)

(** C7: whatever the document, when the extraction returns a table, no cell
    of any column holds a comma, the names column included; neither does
    any cell of any row, nor any field handed to the csv writer. *)
Theorem final_table_comma_free (soup : node) (df : DataFrame) :
  parse_document soup = inr df ->
  Forall (fun col => Forall comma_free col.2) (columns df) /\
  Forall (Forall comma_free) (rows df) /\
  Forall (Forall (fun field => Py.contains "," field = false))
         (to_csv_records df false false).
Proof.
  intros (big_table & cs & _ & Hbuild & Hdf)%parse_document_inv.
  assert (Forall (fun col => Forall comma_free col.2) (columns df)) as Hcols.
  { rewrite assemble_spec in Hdf. unfold ret in Hdf.
    destruct (List.filter shape_ok cs) as [|g gs] eqn:Hf; simplify_eq.
    - cbn. repeat constructor.
    - apply merged_comma_free. rewrite <- Hf.
      apply Forall_forall. intros c Hc%list_elem_of_In.
      apply List.filter_In in Hc as [Hc _].
      apply build_clean in Hbuild. rewrite Forall_forall in Hbuild.
      by apply Hbuild, list_elem_of_In. }
  pose proof (rows_comma_free df Hcols) as Hrows.
  split_and!; [done..|].
  rewrite to_csv_records_plain. apply Forall_fmap.
  eapply Forall_impl; [exact Hrows|]. intros r Hr. simpl.
  by apply Forall_fmap.
Qed.

(** ** C8: running the extraction twice *)

(** C8: run [parse] on a file, and run it again on the files the first run
    left; when the first run did not change the input file, the second run
    returns the same table (or the same error) and leaves the same files,
    the output file included. *)
Theorem parse_twice (BeautifulSoup : string -> node)
    (csv_writer : list (list string) -> string)
    (fs : gmap string string) (file_handle : string) (write_to_csv : bool) :
  (parse BeautifulSoup csv_writer fs file_handle write_to_csv).2 !! file_handle =
    fs !! file_handle ->
  parse BeautifulSoup csv_writer
    (parse BeautifulSoup csv_writer fs file_handle write_to_csv).2
    file_handle write_to_csv =
  parse BeautifulSoup csv_writer fs file_handle write_to_csv.
Proof.
  unfold parse at 1 3 4.
  destruct (fs !! file_handle) as [content|] eqn:Hfile; cbn [snd].
  2:{ intros _. unfold parse. by rewrite Hfile. }
  destruct (parse_document (BeautifulSoup content)) as [e|df] eqn:Hdoc; cbn [snd].
  { intros _. unfold parse. by rewrite Hfile, Hdoc. }
  intros Hsame. unfold parse. rewrite Hsame, Hdoc.
  destruct write_to_csv; [|done].
  by rewrite insert_insert_eq.
Qed.

(** ** C9: more nested tables than names or electorates *)

(** C9: when the results table holds more nested tables than collected bold
    tags, or more than collected electorates, the build loop gets through
    the tables that have both and raises [IndexError] at the first one that
    lacks either; the error is not caught, so the extraction ends with it. *)
Theorem count_mismatch_aborts (big_table : node) (names : list node)
    (electorates : list string) :
  for_each collect_row (find_all "tr" big_table) ([], []) = inr (names, electorates) ->
  length names < length (find_all "table" big_table) \/
  length electorates < length (find_all "table" big_table) ->
  let m := length names `min` length electorates in
  (exists rs, for_each (build_step names electorates)
                (take m (find_all "table" big_table)) ([], 0) = inr (rs, m)) /\
  for_each (build_step names electorates)
    (take (S m) (find_all "table" big_table)) ([], 0) = inl IndexError /\
  parse_table big_table = inl IndexError.
Proof.
  intros Hcollect Hshort m. unfold parse_table, build.
  remember (find_all "table" big_table) as tables eqn:Htables.
  assert (m < length tables) as Hm by (unfold m; lia).
  assert (m <= length names /\ m <= length electorates) as [Hmn Hme]
    by (unfold m; lia).
  assert (m = length names \/ m = length electorates) as Hmin
    by (unfold m; lia).
  clearbody m.
  split_and!.
  - destruct (build_loop_ok names electorates (take m tables) [] 0)
      as (rs & Hrun & _); [rewrite length_take_le by lia; simpl; lia..|].
    exists rs. rewrite Hrun. by rewrite length_take_le by lia.
  - apply build_loop_fail; [simpl; lia..|].
    rewrite length_take_le by lia. simpl. lia.
  - rewrite Hcollect. cbn [bind].
    rewrite build_loop_fail; [done|simpl; lia..].
Qed.

(** ** C10: the decode index starts at 0 in every nested table *)

(** C10: when the records are built, the record of the [k]-th nested table
    is what the decode loop makes of that table alone, started from index 0
    on a fresh record with the [k]-th name and electorate: its [j]-th
    candidate, party, votes and percentage are the table's own cells
    [4 j], [4 j + 1], [4 j + 2] and [4 j + 3], whatever the number of cells
    of the tables before it. *)
Theorem decode_index_reset (big_table : node) (cs : list Constituency) :
  build big_table = inr cs ->
  forall k table, find_all "table" big_table !! k = Some table ->
    exists c nm e,
      cs !! k = Some c /\
      bold_markers big_table !! k = Some nm /\
      (electorate_of <$> scanned_paragraphs big_table) !! k = Some e /\
      decode_table table (set_electorate (Constituency_init (text nm)) (Str e)) =
        (c, length (cells table)) /\
      forall j,
        candidates c !! j = candidate_text <$> cells table !! (4 * j) /\
        parties c !! j = plain_text <$> cells table !! (4 * j + 1) /\
        votes c !! j = plain_text <$> cells table !! (4 * j + 2) /\
        percent c !! j = percent_text <$> cells table !! (4 * j + 3).
Proof.
  intros Hbuild k table Hk.
  destruct (build_inv _ _ Hbuild) as (_ & _ & Hcs).
  destruct (Hcs k table Hk) as (nm & p & Hnm & Hp & Hc).
  exists (decoded (fresh nm (electorate_of p)) (cells table) 0), nm, (electorate_of p).
  split_and!; try done.
  - by rewrite list_lookup_fmap, Hp.
  - by rewrite decode_table_decoded.
  - intros j. apply (decoded_lookup (fresh nm (electorate_of p))).
Qed.

(** * Further properties *)

(** ** X1: the assembled table *)

(** X1: the assembly never raises.  Its table holds, in the order of the
    records, the rows of the records whose four sequences have one length:
    one row per candidate, with the name stripped of commas in front and
    the electorate behind.  The row labels start again at 0 with every
    record, and the electorate column is there once a record converts. *)
Theorem assembled_rows (cs : list Constituency) :
  exists df,
    assemble cs = inr df /\
    rows df = flat_map record_rows (List.filter shape_ok cs) /\
    index df =
      flat_map (fun c => seq 0 (length (candidates c))) (List.filter shape_ok cs) /\
    labels df = if List.filter shape_ok cs is [] then five else six.
Proof.
  rewrite assemble_spec. eexists. split; [reflexivity|].
  pose proof (filter_shape_ok cs) as Hgood.
  destruct (List.filter shape_ok cs) as [|g gs]; [by split_and!|].
  split_and!; [|reflexivity..]. by apply rows_merged.
Qed.

(** ** X2: the shape of a record and the number of cells *)

(** X2: when the records are built, the record of a nested table with [n]
    cells has [(n + 3) / 4] candidates, [(n + 2) / 4] parties,
    [(n + 1) / 4] votes and [n / 4] percentages; so it converts to a frame
    exactly when [n] is a multiple of 4, and raises [ValueError] otherwise. *)
Theorem record_shape_by_cell_count (big_table : node) (cs : list Constituency) :
  build big_table = inr cs ->
  forall k table c,
    find_all "table" big_table !! k = Some table -> cs !! k = Some c ->
    let n := length (cells table) in
    length (candidates c) = (n + 3) / 4 /\
    length (parties c) = (n + 2) / 4 /\
    length (votes c) = (n + 1) / 4 /\
    length (percent c) = n / 4 /\
    (n mod 4 = 0 -> to_pandas c = inr (frame_of c) /\ length (rows (frame_of c)) = n / 4) /\
    (n mod 4 <> 0 -> to_pandas c = inl ValueError).
Proof.
  intros Hbuild k table c Ht Hc n.
  destruct (build_inv _ _ Hbuild) as (_ & _ & Hcs).
  destruct (Hcs k table Ht) as (nm & p & _ & _ & Hc'). simplify_eq.
  destruct (decoded_lengths nm (electorate_of p) (cells table))
    as (H0 & H1 & H2 & H3).
  pose proof (decoded_shape_bool nm (electorate_of p) (cells table)) as Hshape.
  split_and!; try done.
  - intros Hn. fold n in Hshape. rewrite Hn in Hshape.
    split; [by apply to_pandas_ok|].
    rewrite rows_length. cbn [frame_of frame6 index]. rewrite length_seq, H0.
    fold n. pose proof (Nat.div_mod_eq n 4). pose proof (Nat.div_mod_eq (n + 3) 4).
    pose proof (Nat.mod_upper_bound (n + 3) 4). lia.
  - intros Hn. apply to_pandas_bad. rewrite Hshape. by apply Nat.eqb_neq.
Qed.

(** ** X3: the final table, from the document *)

(** X3: when the extraction returns a table, its rows are, nested table by
    nested table in document order, the rows of the tables whose number of
    cells is a multiple of 4: one row for every four cells, made of the
    text of the bold tag of the same rank without commas, the four cells
    normalised, and the electorate of the paragraph of the same rank.  A
    table with any other number of cells gives no row, so the number of
    rows is the sum of [n / 4] over the tables with [n mod 4 = 0]. *)
Theorem final_table_rows (soup : node) (df : DataFrame) :
  parse_document soup = inr df ->
  exists big_table,
    find_all "table" soup !! 1 = Some big_table /\
    rows df =
      flat_map (fun '(nm, p, table) => table_rows nm p table)
        (zip (zip (bold_markers big_table) (scanned_paragraphs big_table))
             (find_all "table" big_table)) /\
    length (rows df) =
      sum_list ((fun table => if length (cells table) mod 4 =? 0
                              then length (cells table) / 4 else 0)
                  <$> find_all "table" big_table).
Proof.
  intros (big_table & cs & Hbig & Hbuild & Hrows)%parse_rows.
  exists big_table. split_and!; [done..|].
  destruct (build_lengths _ _ Hbuild) as [Hn Hp].
  rewrite Hrows, flat_map_length_sum.
  rewrite <- (snd_zip (zip (bold_markers big_table) (scanned_paragraphs big_table))
                      (find_all "table" big_table)) at 2
    by (rewrite length_zip_with; lia).
  rewrite <- list_fmap_compose. f_equal. apply list_fmap_ext.
  intros _ [[nm p] table] _. unfold table_rows, compose. cbn [snd].
  destruct (_ =? _); [|done]. by rewrite length_fmap, quadruples_length.
Qed.

(** ** X4: how the extraction ends *)

(** X4: the extraction ends in exactly one of four ways, decided in this
    order.  Fewer than two tables in the document: [IndexError].  Some
    scanned paragraph without the pattern: [AttributeError], whatever the
    numbers of tables, bold tags and paragraphs.  Every paragraph matched
    but more nested tables than bold tags or than paragraphs:
    [IndexError].  Otherwise a table is returned; no other error, and none
    from the assembly, is possible. *)
Theorem parse_document_outcome (soup : node) :
  (length (find_all "table" soup) < 2 /\ parse_document soup = inl IndexError) \/
  exists big_table,
    find_all "table" soup !! 1 = Some big_table /\
    let ps := scanned_paragraphs big_table in
    let tables := find_all "table" big_table in
    (Exists (fun p => Re.search decimal (text p) = None) ps /\
     parse_document soup = inl AttributeError) \/
    (Forall (fun p => is_Some (Re.search decimal (text p))) ps /\
     (length (bold_markers big_table) < length tables \/
      length ps < length tables) /\
     parse_document soup = inl IndexError) \/
    (Forall (fun p => is_Some (Re.search decimal (text p))) ps /\
     length tables <= length (bold_markers big_table) /\
     length tables <= length ps /\
     exists df, parse_document soup = inr df).
Proof.
  unfold parse_document, getitem.
  destruct (find_all "table" soup !! 1) as [big_table|] eqn:Hbig.
  2:{ left. split; [|done]. apply lookup_ge_None in Hbig. lia. }
  right. exists big_table. split; [done|].
  set (ps := scanned_paragraphs big_table).
  set (tables := find_all "table" big_table).
  cbn [bind ret]. unfold parse_table, build.
  destruct (matched_or_not ps) as [Hall|Hex].
  2:{ left. split; [done|].
      unfold ps, scanned_paragraphs in Hex.
      by rewrite (collect_rows_bad _ [] [] Hex). }
  right. pose proof Hall as Hall'. unfold ps, scanned_paragraphs in Hall'.
  rewrite (collect_rows_ok _ [] [] Hall'). cbn [bind ret app]. clear Hall'.
  fold (bold_markers big_table). fold (scanned_paragraphs big_table).
  fold ps tables. clearbody ps tables.
  destruct (decide (length tables <= length (bold_markers big_table) /\
                    length tables <= length ps)) as [[Hn Hp]|Hshort].
  - right. split_and!; [done..|].
    destruct (build_loop_ok (bold_markers big_table) (electorate_of <$> ps)
                tables [] 0) as (rs & Hrun & _);
      [rewrite ?length_fmap; simpl; lia..|].
    rewrite Hrun. cbn [bind ret app]. rewrite assemble_spec. eauto.
  - left. split_and!; [done|lia|].
    rewrite build_loop_fail; [done|rewrite ?length_fmap; simpl; lia..].
Qed.

(** ** X5: what the cells of the final table hold *)

(** X5: every row of the final table is six strings, none of them a
    missing value: the candidate holds no asterisk, the percentage no
    per-cent sign, and the electorate nothing but decimal digits, that
    is, characters that [\d] accepts. *)
Theorem final_rows_are_text (soup : node) (df : DataFrame) :
  parse_document soup = inr df ->
  Forall (fun r => exists nm a b v q e,
            r = [Str nm; Str a; Str b; Str v; Str q; Str e] /\
            Py.contains "*" a = false /\
            Py.contains "%" q = false /\
            Py.all_chars decimal e = true)
         (rows df).
Proof.
  intros (big_table & cs & _ & Hbuild & ->)%parse_rows.
  destruct (build_inv _ _ Hbuild) as (Hall & _ & _).
  apply List.Forall_flat_map, Forall_forall.
  intros [[nm p] table] Hin. apply zip_paragraph_scanned in Hin.
  rewrite Forall_forall in Hall. specialize (Hall p Hin).
  assert (Py.all_chars decimal (electorate_of p) = true) as Hdigits.
  { unfold electorate_of. destruct Hall as [exp Hexp]. rewrite Hexp.
    apply search_Some in Hexp as (_ & r & _ & _ & -> & _ & Hr & _).
    by apply electorate_text_digits. }
  unfold table_rows. destruct (_ =? _); [|constructor].
  apply Forall_fmap, Forall_forall. intros [[[a b] c] d] _. simpl.
  eexists _, _, _, _, _, _. split_and!; [reflexivity| | |exact Hdigits].
  - apply replace_char_gone.
  - apply replace_char_gone.
Qed.

(** ** X6: the paragraphs the collection loop accepts *)

Lemma search_has_figure (s : string) :
  is_Some (Re.search decimal s) <-> has_figure s.
Proof.
  split.
  - intros [m (pre & r & post & -> & _ & Hne & Hr & _)%search_Some].
    destruct r as [|c r]; [done|].
    exists pre, c, (r +:+ post). split; [by rewrite append_cons|].
    by apply andb_true_iff in Hr as [Hc _].
  - intros (pre & c & rest & -> & Hc). by apply search_complete.
Qed.

(** X6: the lookup of the electorate in a paragraph returns exactly when
    the text of the paragraph holds [Electorate: ] directly followed by a
    decimal digit or a comma, which is when [re.search] finds the pattern;
    one entry is appended then.  On any other paragraph the lookup raises
    [AttributeError].  So the collection loop over the results table
    returns exactly when every paragraph it goes through has such a place,
    and raises [AttributeError] as soon as one has none. *)
Theorem collection_accepts (big_table : node) :
  (forall s, has_figure s <-> is_Some (Re.search decimal s)) /\
  (forall electorates p,
     (has_figure (text p) <->
      exists e, collect_electorate electorates p = inr (electorates ++ [e])) /\
     (~ has_figure (text p) <->
      collect_electorate electorates p = inl AttributeError)) /\
  let collected := for_each collect_row (find_all "tr" big_table) ([], []) in
  (Forall (fun p => has_figure (text p)) (scanned_paragraphs big_table) <->
   exists r, collected = inr r) /\
  (Exists (fun p => ~ has_figure (text p)) (scanned_paragraphs big_table) <->
   collected = inl AttributeError).
Proof.
  split; [intros s; by rewrite search_has_figure|].
  split.
  - intros electorates p. rewrite <- !search_has_figure.
    unfold collect_electorate, raise, ret.
    destruct (Re.search decimal (text p)) as [exp|]; split; split.
    + eauto.
    + eauto.
    + intros H. destruct H. eauto.
    + done.
    + by intros [? ?].
    + by intros [e ?].
    + done.
    + intros _ [? ?]. done.
  - intros collected.
    assert (forall ps, Forall (fun p => has_figure (text p)) ps <->
                       Forall (fun p => is_Some (Re.search decimal (text p))) ps)
      as Hall.
    { intros ps. apply Forall_iff. intros p. by rewrite search_has_figure. }
    assert (forall ps, Exists (fun p => ~ has_figure (text p)) ps <->
                       Exists (fun p => Re.search decimal (text p) = None) ps)
      as Hex.
    { intros ps. rewrite !Exists_exists. apply exist_proper. intros p.
      rewrite <- search_has_figure, <- eq_None_not_Some. done. }
    rewrite Hall, Hex. unfold collected, scanned_paragraphs.
    destruct (matched_or_not (flat_map (find_all "p") (find_all "tr" big_table)))
      as [Hok|Hbad].
    + rewrite (collect_rows_ok _ [] [] Hok). unfold ret. split; split.
      * eauto.
      * done.
      * intros Hnone. exfalso. apply Exists_exists in Hnone as (p & Hp & Hnone).
        rewrite Forall_forall in Hok. specialize (Hok p Hp).
        rewrite Hnone in Hok. by destruct Hok.
      * done.
    + rewrite (collect_rows_bad _ [] [] Hbad). unfold raise. split; split.
      * intros Hok. exfalso. apply Exists_exists in Hbad as (p & Hp & Hnone).
        rewrite Forall_forall in Hok. specialize (Hok p Hp).
        rewrite Hnone in Hok. by destruct Hok.
      * by intros [r ?].
      * done.
      * done.
Qed.

(** ** The name of the output file *)

Lemma take_append (base ext : string) :
  Py.take (String.length base) (base +:+ ext) = base.
Proof.
  induction base as [|a base IH]; unfold_append; cbn [String.length Py.take].
  - by destruct ext.
  - by rewrite IH.
Qed.

Lemma length_append (s t : string) :
  String.length (s +:+ t) = String.length s + String.length t.
Proof.
  induction s as [|a s IH]; unfold_append; cbn [String.length]; [done|].
  by rewrite IH.
Qed.

(** [s[:-n]] takes off an ending of [n] characters. *)
Lemma drop_last_append (base ext : string) :
  Py.drop_last (String.length ext) (base +:+ ext) = base.
Proof.
  unfold Py.drop_last. rewrite length_append.
  replace (String.length base + String.length ext - String.length ext)
    with (String.length base) by lia.
  apply take_append.
Qed.

Lemma append_assoc (s t u : string) : (s +:+ t) +:+ u = s +:+ (t +:+ u).
Proof.
  induction s as [|a s IH]; unfold_append; [done|]. by rewrite IH.
Qed.

Lemma output_path (base ext : string) :
  String.length ext = 4 ->
  Py.drop_last 4 (base +:+ ext) +:+ ".csv" = base +:+ ".csv".
Proof. intros <-. by rewrite drop_last_append. Qed.

(** ** X7: where the output goes *)

(** X7: for an input file whose name ends in any four characters, [.htm]
    among them, a run with [write_to_csv] that parses the file returns the
    table and writes its records to the name with these four characters
    replaced by [.csv], leaving every other file as it was.  A name in
    [.html] keeps its dot, so the output name ends in [..csv]. *)
Theorem output_file_name (BeautifulSoup : string -> node)
    (csv_writer : list (list string) -> string)
    (fs : gmap string string) (base ext content : string) (df : DataFrame) :
  String.length ext = 4 ->
  fs !! (base +:+ ext) = Some content ->
  parse_document (BeautifulSoup content) = inr df ->
  parse BeautifulSoup csv_writer fs (base +:+ ext) true =
    (inr df, <[base +:+ ".csv" := csv_writer (to_csv_records df false false)]> fs) /\
  (forall path, path <> base +:+ ".csv" ->
     (parse BeautifulSoup csv_writer fs (base +:+ ext) true).2 !! path = fs !! path) /\
  (forall stem, Py.drop_last 4 (stem +:+ ".html") +:+ ".csv" = stem +:+ "..csv").
Proof.
  intros Hext Hfile Hdoc.
  assert (parse BeautifulSoup csv_writer fs (base +:+ ext) true =
          (inr df, <[base +:+ ".csv" :=
                       csv_writer (to_csv_records df false false)]> fs)) as Hrun.
  { unfold parse. by rewrite Hfile, Hdoc, output_path. }
  split_and!.
  - exact Hrun.
  - intros path Hpath. rewrite Hrun. cbn [snd]. by rewrite lookup_insert_ne.
  - intros stem.
    change (stem +:+ ".html") with (stem +:+ ("." +:+ "html")).
    rewrite <- append_assoc, output_path by reflexivity.
    by rewrite append_assoc.
Qed.

(** ** X8: the files a run touches *)

(** X8: [parse] changes no file but the one named after the input with its
    last four characters replaced by [.csv]; when [write_to_csv] is off,
    when the input file is missing or when the extraction raises, it
    changes no file at all, and a missing input gives
    [FileNotFoundError]. *)
Theorem parse_touches_one_file (BeautifulSoup : string -> node)
    (csv_writer : list (list string) -> string)
    (fs : gmap string string) (file_handle : string) (write_to_csv : bool) :
  let run := parse BeautifulSoup csv_writer fs file_handle write_to_csv in
  (forall path, path <> Py.drop_last 4 file_handle +:+ ".csv" ->
     run.2 !! path = fs !! path) /\
  (write_to_csv = false -> run.2 = fs) /\
  (forall e, run.1 = inl e -> run.2 = fs) /\
  (fs !! file_handle = None -> run = (inl FileNotFoundError, fs)).
Proof.
  intros run. unfold run, parse.
  destruct (fs !! file_handle) as [content|]; [|by split_and!].
  destruct (parse_document (BeautifulSoup content)) as [e|df];
    [by split_and!|].
  destruct write_to_csv; cbn [fst snd]; split_and!; try done.
  intros path Hpath. by rewrite lookup_insert_ne.
Qed.

(** ** X9: when a run overwrites its own input *)

Lemma output_is_input (file_handle : string) :
  Py.drop_last 4 file_handle +:+ ".csv" = file_handle <->
  exists base, file_handle = base +:+ ".csv".
Proof.
  split.
  - intros H. by exists (Py.drop_last 4 file_handle).
  - intros [base ->]. by rewrite output_path.
Qed.

(** X9: a run with [write_to_csv] that parses its input leaves the input
    file as it was unless the name of that file ends in [.csv]: then the
    output name is the input name and the input is replaced by the csv
    text. *)
Theorem input_file_fate (BeautifulSoup : string -> node)
    (csv_writer : list (list string) -> string)
    (fs : gmap string string) (file_handle content : string) (df : DataFrame) :
  fs !! file_handle = Some content ->
  parse_document (BeautifulSoup content) = inr df ->
  ((exists base, file_handle = base +:+ ".csv") ->
   (parse BeautifulSoup csv_writer fs file_handle true).2 !! file_handle =
     Some (csv_writer (to_csv_records df false false))) /\
  (~ (exists base, file_handle = base +:+ ".csv") ->
   (parse BeautifulSoup csv_writer fs file_handle true).2 !! file_handle =
     Some content).
Proof.
  intros Hfile Hdoc. unfold parse. rewrite Hfile, Hdoc. cbn [snd]. split.
  - intros Hcsv%output_is_input. rewrite Hcsv. apply lookup_insert_eq.
  - intros Hother. rewrite lookup_insert_ne; [done|].
    intros Heq. by apply Hother, output_is_input.
Qed.

(** ** X10: the script *)

(** X10: run on a command line whose first argument names an existing
    [.htm] file, the script prints that name and then parses the file: if
    the extraction returns a table it writes the records to the name in
    [.csv] and ends normally; if the extraction raises, the name has been
    printed all the same, no file is written and the script ends with that
    exception. *)
Theorem main_usage (BeautifulSoup : string -> node)
    (csv_writer : list (list string) -> string)
    (argv : list string) (fs : gmap string string) (stdout : list string)
    (base content : string) :
  argv !! 1 = Some (base +:+ ".htm") ->
  fs !! (base +:+ ".htm") = Some content ->
  match parse_document (BeautifulSoup content) with
  | inr df =>
      main BeautifulSoup csv_writer argv fs stdout =
        (inr tt,
         <[base +:+ ".csv" := csv_writer (to_csv_records df false false)]> fs,
         stdout ++ [base +:+ ".htm"])
  | inl e =>
      main BeautifulSoup csv_writer argv fs stdout =
        (inl e, fs, stdout ++ [base +:+ ".htm"])
  end.
Proof.
  intros Hargv Hfile. unfold main, getitem. rewrite Hargv. cbn [ret].
  destruct (parse_document (BeautifulSoup content)) as [e|df] eqn:Hdoc.
  - unfold parse. by rewrite Hfile, Hdoc.
  - unfold parse. by rewrite Hfile, Hdoc, output_path.
Qed.

(** ** X11: rows inside rows *)



(** ** X12: the first figure of a paragraph *)

Lemma search_skip (pre s : string) :
  Py.contains "E" pre = false -> Re.search decimal (pre +:+ s) = Re.search decimal s.
Proof.
  induction pre as [|a pre IH]; [done|].
  cbn [Py.contains]. intros [Ha Hpre]%orb_false_iff.
  rewrite append_cons, search_unfold.
  assert (Re.match_here decimal (String a (pre +:+ s)) = None) as ->.
  { unfold Re.match_here, Re.literal. cbn [Py.startswith].
    rewrite Ascii.eqb_sym, Ha. done. }
  by apply IH.
Qed.

(** X12: for a paragraph whose text is some lead without a capital [E],
    then [Electorate: ], then a run of decimal digits (whatever [\d]
    accepts) and commas that something else or nothing follows, the loop
    appends that run without its commas, decimal digits only, and goes
    on: the text after the run, a second figure included, plays no
    part. *)
Theorem first_figure_collected (electorates : list string) (p : node)
    (pre r post : string) :
  text p = pre +:+ "Electorate: " +:+ r +:+ post ->
  Py.contains "E" pre = false ->
  r <> EmptyString -> Py.all_chars (Re.in_class decimal) r = true ->
  match post with
  | EmptyString => True
  | String c _ => Re.in_class decimal c = false
  end ->
  collect_electorate electorates p = inr (electorates ++ [Py.replace "," "" r]) /\
  Py.all_chars decimal (Py.replace "," "" r) = true.
Proof.
  intros Htext Hpre Hne Hr Hpost. split; [|by apply digits_of_run].
  unfold collect_electorate. rewrite Htext, search_skip by done.
  pose proof (match_here_complete r post Hne Hr Hpost) as Hmatch.
  pose proof (replace_literal r Hr) as Hrun.
  unfold Re.literal in Hmatch, Hrun.
  by rewrite search_unfold, Hmatch, Hrun.
Qed.

End Extraction.

(** * The worked documents

    The documents of [Examples] and [Layouts] hold no digit but the ASCII
    ones, so on them the class is [Re.ascii_digit]. *)

Example search_values :
  Re.search Re.ascii_digit "Electorate: 54,321 voters" = Some "Electorate: 54,321"%string /\
  Re.search Re.ascii_digit "Electorate: n/a. Electorate: 7" = Some "Electorate: 7"%string /\
  Re.search Re.ascii_digit "Electorate:" = None.
Proof. split_and!; reflexivity. Qed.

(** A figure in the digits of another script: with a class that accepts,
    beside the ASCII digits, a character outside ASCII, the figure is
    collected like any other. *)
Example other_script_figure :
  collect_electorate (fun c => Re.ascii_digit c || Ascii.eqb c "217") []
    (Tag "p" [Text ("Electorate: " +:+ String "217" (String "217" ""))]) =
  inr [String "217" (String "217" "")].
Proof. reflexivity. Qed.

(** ** The scenarios of the specification *)

Example scenario_anytown :
  (do df <- parse_document Re.ascii_digit Examples.anytown; ret (rows df)) =
  inr [[Str "Anytown"; Str "J. Doe"; Str "Indep"; Str "1234"; Str "45.6";
        Str "54321"]].
Proof. reflexivity. Qed.

Example scenario_three_cells :
  (do df <- parse_document Re.ascii_digit Examples.university_first; ret (rows df)) =
  inr [[Str "Any town"; Str "J. Doe"; Str "Indep"; Str "1234"; Str "45.6";
        Str "54321"]].
Proof. reflexivity. Qed.

Example scenario_one_table :
  parse_document Re.ascii_digit Examples.one_table = inl IndexError.
Proof. reflexivity. Qed.

(** ** The claims on the worked documents *)

(** C4, as stated, fails: [find_all] looks at every depth, so a table
    nested in the first one counts.  Each of these two pages has a single
    table at the top level, yet the extraction does not fail.  On the page
    that lacks the navigation table the first constituency table is taken
    for the results table and an empty table is returned; on the page whose
    tables sit inside one outer table a record is built and a row returned. *)
Lemma one_top_level_table_suffices :
  (length (top_level_tables Examples.results_only) = 1 /\
   parse_document Re.ascii_digit Examples.results_only = inr (DataFrame_new five)) /\
  (length (top_level_tables Examples.wrapped) = 1 /\
   exists df,
     parse_document Re.ascii_digit Examples.wrapped = inr df /\
     rows df = [[Str "Anytown"; Str "J. Doe"; Str "Indep"; Str "1234";
                 Str "45.6"; Str "54321"]]).
Proof.
  split; (split; [reflexivity|]); [reflexivity|].
  eexists. split; reflexivity.
Qed.

(** C5, as stated, fails: a paragraph without the pattern is not skipped.
    [re.search] returns [None], taking [group(0)] of it raises, and the
    whole extraction ends with that error. *)
Lemma unmatched_paragraph_raises :
  Re.search Re.ascii_digit (text (Tag "p" [Text "Polling day: 5 July"])) = None /\
  for_each (collect_row Re.ascii_digit)
    (find_all "tr" (Examples.big_table_of Examples.no_figure)) ([], []) =
    inl AttributeError /\
  parse_document Re.ascii_digit Examples.no_figure = inl AttributeError.
Proof. split_and!; reflexivity. Qed.

Lemma collect_electorates_witness :
  for_each (collect_row Re.ascii_digit)
    (find_all "tr" (Examples.big_table_of Examples.anytown)) ([], []) =
  inr ([Tag "b" [Text "Anytown"]], ["54321"%string]).
Proof.
  destruct (collect_electorates Re.ascii_digit eq_refl
              (Examples.big_table_of Examples.anytown))
    as [(_ & Hcollected & _)|(_ & Hcollected & _)].
  - exact Hcollected.
  - discriminate Hcollected.
Defined.


Lemma final_table_comma_free_witness :
  exists df,
    parse_document Re.ascii_digit Examples.university_first = inr df /\
    Forall (Forall comma_free) (rows df).
Proof.
  eexists. split; [reflexivity|].
  exact (proj1 (proj2 (final_table_comma_free Re.ascii_digit
                         Examples.university_first _ eq_refl))).
Defined.

Lemma parse_twice_witness :
  parse Re.ascii_digit Examples.soup_of Examples.join_records
    (parse Re.ascii_digit Examples.soup_of Examples.join_records Examples.disk
       "anytown.htm" true).2
    "anytown.htm" true =
  parse Re.ascii_digit Examples.soup_of Examples.join_records Examples.disk
    "anytown.htm" true.
Proof. apply parse_twice. vm_compute. reflexivity. Defined.

Lemma count_mismatch_aborts_witness :
  parse_table Re.ascii_digit (Examples.big_table_of Examples.unnamed_table) =
  inl IndexError.
Proof.
  refine (proj2 (proj2 (count_mismatch_aborts Re.ascii_digit
            (Examples.big_table_of Examples.unnamed_table)
            [Tag "b" [Text "Anytown"]] ["54321"%string] _ _))).
  - reflexivity.
  - right. vm_compute. lia.
Defined.

Lemma decode_index_reset_witness :
  exists c,
    decode_table (Examples.nested Examples.doe)
      (set_electorate (Constituency_init "Any, town") (Str "54321")) = (c, 4) /\
    candidates c = ["J. Doe"%string].
Proof.
  destruct (decode_index_reset Re.ascii_digit
              (Examples.big_table_of Examples.university_first)
              [ {| name := "Combined, Universities";
                   candidates := ["A. Don"%string]; parties := ["Ind"%string];
                   votes := ["900"%string]; percent := [];
                   electorate := Str "2000" |};
                {| name := "Any, town";
                   candidates := ["J. Doe"%string]; parties := ["Indep"%string];
                   votes := ["1234"%string]; percent := ["45.6"%string];
                   electorate := Str "54321" |} ]
              eq_refl 1 (Examples.nested Examples.doe) eq_refl)
    as (c & nm & e & Hc & Hnm & He & Hdec & _).
  injection Hc as <-. injection Hnm as <-. injection He as <-.
  eexists. split; [exact Hdec|reflexivity].
Defined.

(** ** The further properties on the worked documents *)

Lemma record_shape_by_cell_count_witness :
  to_pandas {| name := "Combined, Universities";
               candidates := ["A. Don"%string]; parties := ["Ind"%string];
               votes := ["900"%string]; percent := [];
               electorate := Str "2000" |} = inl ValueError.
Proof.
  refine (proj2 (proj2 (proj2 (proj2 (proj2
    (record_shape_by_cell_count Re.ascii_digit
       (Examples.big_table_of Examples.university_first) _ eq_refl
       0 (Examples.nested ["A. Don"; "Ind"; "900"]) _ eq_refl eq_refl))))) _).
  vm_compute. discriminate.
Defined.

Lemma final_table_rows_witness :
  exists df,
    parse_document Re.ascii_digit Examples.university_first = inr df /\
    length (rows df) = 1.
Proof.
  eexists. split; [reflexivity|].
  destruct (final_table_rows Re.ascii_digit Examples.university_first _ eq_refl)
    as (big_table & Hbig & _ & Hlen).
  injection Hbig as <-. exact Hlen.
Defined.

Lemma final_rows_are_text_witness :
  exists df,
    parse_document Re.ascii_digit Examples.anytown = inr df /\
    Forall (fun r => length r = 6) (rows df).
Proof.
  eexists. split; [reflexivity|].
  eapply Forall_impl;
    [exact (final_rows_are_text Re.ascii_digit Examples.anytown _ eq_refl)|].
  intros r (nm & a & b & v & q & e & -> & _). reflexivity.
Defined.

Lemma output_file_name_witness :
  parse Re.ascii_digit Examples.soup_of Examples.join_records Examples.disk
    "anytown.htm" true =
  (inr (frame6 [0] [Str "Anytown"] [Str "J. Doe"] [Str "Indep"] [Str "1234"]
               [Str "45.6"] [Str "54321"]),
   <["anytown.csv"%string :=
       "Anytown,J. Doe,Indep,1234,45.6,54321" +:+ String "010" ""]> Examples.disk).
Proof.
  exact (proj1 (output_file_name Re.ascii_digit Examples.soup_of
                  Examples.join_records
                  Examples.disk "anytown" ".htm" "<anytown>" _
                  eq_refl eq_refl eq_refl)).
Defined.

Lemma input_file_fate_witness :
  (parse Re.ascii_digit Examples.soup_of Examples.join_records Layouts.csv_named
     "anytown.csv" true).2 !! "anytown.csv"%string =
  Some ("Anytown,J. Doe,Indep,1234,45.6,54321" +:+ String "010" "").
Proof.
  refine (proj1 (input_file_fate Re.ascii_digit Examples.soup_of
                   Examples.join_records
                   Layouts.csv_named "anytown.csv" "<anytown>" _
                   eq_refl eq_refl) _).
  by exists "anytown"%string.
Defined.

Lemma main_usage_witness :
  main Re.ascii_digit Examples.soup_of Examples.join_records Layouts.argv
    Examples.disk [] =
  (inr tt,
   <["anytown.csv"%string :=
       "Anytown,J. Doe,Indep,1234,45.6,54321" +:+ String "010" ""]> Examples.disk,
   ["anytown.htm"%string]).
Proof.
  exact (main_usage Re.ascii_digit Examples.soup_of Examples.join_records
           Layouts.argv Examples.disk [] "anytown" "<anytown>" eq_refl eq_refl).
Defined.

Lemma first_figure_collected_witness :
  collect_electorate Re.ascii_digit []
    (Tag "p" [Text "Turnout 70%. Electorate: 54,321; Electorate: 9"]) =
  inr ["54321"%string].
Proof.
  refine (proj1 (first_figure_collected Re.ascii_digit eq_refl []
            (Tag "p" [Text "Turnout 70%. Electorate: 54,321; Electorate: 9"])
            "Turnout 70%. " "54,321" "; Electorate: 9" _ _ _ _ _)).
  - reflexivity.
  - reflexivity.
  - discriminate.
  - reflexivity.
  - reflexivity.
Defined.
